(** * Sensor node firmware (src/application.c): a shallow embedding

    The application is a set of event handlers over file-scope variables and
    two function-local statics.  Every handler is embedded as a function
    from the node state to the node state; calls into the SDK that produce
    output (LED, UART) are appended to a trace kept in the state; values the
    handler obtains from the SDK (the current tick, a sensor reading) are
    arguments of the handler. *)

From Stdlib Require Import ZArith NArith List Lia Bool.
From Stdlib Require Import Floats.SpecFloat.
From Stdlib Require Ascii String.
Import ListNotations.

Local Open Scope N_scope.

(** ** C integer types *)

Module MachInt.

(** [uint16_t]: the two button counters. *)
Definition UINT16_MAX : N := 65535.

Definition uint16_incr (n : N) : N := (n + 1) mod 2 ^ 16.

(** [twr_tick_t] is declared in the SDK header twr_tick.h, which is not
    among the sources; the SDK declares it as [uint64_t], a count of
    milliseconds.  Ticks are naturals and the arithmetic wraps at 2^64. *)
Definition tick : Type := N.

Definition TICK_MOD : N := 2 ^ 64.

Definition tick_add (a b : tick) : tick := (a + b) mod TICK_MOD.

Definition tick_sub (a b : tick) : tick :=
  Z.to_N ((Z.of_N a - Z.of_N b) mod Z.of_N TICK_MOD).

(** Conversion of an unsigned 64-bit value to [int] (32 bits, two's
    complement), as in [int hold_duration = <tick expression>]. *)
Definition INT_MAX : Z := 2147483647.

Definition int_of_tick (t : tick) : Z :=
  ((Z.of_N t + 2 ^ 31) mod 2 ^ 32 - 2 ^ 31)%Z.

End MachInt.
Import MachInt.

(** ** C [float] (IEEE 754 binary32) *)

Module F32.

Definition prec : Z := 24.
Definition emax : Z := 128.

Definition float : Type := spec_float.

(** The [NAN] macro of math.h. *)
Definition NAN : float := S754_nan.

Definition sub (x y : float) : float := SFsub prec emax x y.
Definition fabsf (x : float) : float := SFabs x.

(** [x != y] and [x >= y] on floats: every comparison with a NaN operand
    is false, hence [!=] is true. *)
Definition ne (x y : float) : bool := negb (SFeqb x y).
Definition ge (x y : float) : bool := SFleb y x.

(** Literals: the binary32 value nearest to the decimal [n / d]. *)
Definition of_Z (z : Z) : float := binary_normalize prec emax z 0 false.
Definition of_ratio (n d : Z) : float :=
  SFdiv prec emax (of_Z n) (of_Z d).

End F32.

(** ** Constants of application.c *)

Definition SERVICE_MODE_INTERVAL : tick := 15 * 60 * 1000.
Definition BATTERY_UPDATE_INTERVAL : tick := 60 * 60 * 1000.
Definition TEMPERATURE_PUB_INTERVAL : tick := 15 * 60 * 1000.
(** [0.2f] is 0x3E4CCCCD, i.e. 13421773 * 2^-26. *)
Definition TEMPERATURE_PUB_DIFFERENCE : F32.float :=
  S754_finite false 13421773 (-26).
Definition TEMPERATURE_UPDATE_SERVICE_INTERVAL : tick := 1 * 1000.
Definition TEMPERATURE_UPDATE_NORMAL_INTERVAL : tick := 10 * 1000.
Definition ACCELEROMETER_UPDATE_SERVICE_INTERVAL : tick := 1 * 1000.
Definition ACCELEROMETER_UPDATE_NORMAL_INTERVAL : tick := 10 * 1000.

(** ** Events delivered by the SDK drivers

    The enumerations are declared in SDK headers; the handlers only compare
    the event against the constants named below, every other value falls
    through all branches. *)

Inductive twr_button_event_t : Type :=
| TWR_BUTTON_EVENT_PRESS
| TWR_BUTTON_EVENT_RELEASE
| TWR_BUTTON_EVENT_CLICK
| TWR_BUTTON_EVENT_HOLD.

Inductive twr_module_battery_event_t : Type :=
| TWR_MODULE_BATTERY_EVENT_LEVEL_LOW
| TWR_MODULE_BATTERY_EVENT_LEVEL_CRITICAL
| TWR_MODULE_BATTERY_EVENT_UPDATE
| TWR_MODULE_BATTERY_EVENT_ERROR.

Inductive twr_tmp112_event_t : Type :=
| TWR_TMP112_EVENT_ERROR
| TWR_TMP112_EVENT_UPDATE.

Inductive twr_lis2dh12_event_t : Type :=
| TWR_LIS2DH12_EVENT_ERROR
| TWR_LIS2DH12_EVENT_UPDATE
| TWR_LIS2DH12_EVENT_ALARM.

(** Dice faces: [TWR_DICE_FACE_UNKNOWN] and the six sides. *)
Inductive twr_dice_face_t : Type :=
| TWR_DICE_FACE_UNKNOWN
| TWR_DICE_FACE_1
| TWR_DICE_FACE_2
| TWR_DICE_FACE_3
| TWR_DICE_FACE_4
| TWR_DICE_FACE_5
| TWR_DICE_FACE_6.

Definition face_eqb (a b : twr_dice_face_t) : bool :=
  match a, b with
  | TWR_DICE_FACE_UNKNOWN, TWR_DICE_FACE_UNKNOWN
  | TWR_DICE_FACE_1, TWR_DICE_FACE_1
  | TWR_DICE_FACE_2, TWR_DICE_FACE_2
  | TWR_DICE_FACE_3, TWR_DICE_FACE_3
  | TWR_DICE_FACE_4, TWR_DICE_FACE_4
  | TWR_DICE_FACE_5, TWR_DICE_FACE_5
  | TWR_DICE_FACE_6, TWR_DICE_FACE_6 => true
  | _, _ => false
  end.

(** [int orientation = face]. *)
Definition int_of_face (f : twr_dice_face_t) : Z :=
  match f with
  | TWR_DICE_FACE_UNKNOWN => 0
  | TWR_DICE_FACE_1 => 1
  | TWR_DICE_FACE_2 => 2
  | TWR_DICE_FACE_3 => 3
  | TWR_DICE_FACE_4 => 4
  | TWR_DICE_FACE_5 => 5
  | TWR_DICE_FACE_6 => 6
  end%Z.

(** The reading of [twr_lis2dh12_get_result_g]. *)
Record twr_lis2dh12_result_g_t : Type := mkResultG {
  x_axis : F32.float;
  y_axis : F32.float;
  z_axis : F32.float
}.

(** ** Output

    Each [sprintf] / [twr_uart_write] pair is one message; the message
    keeps the format it was printed with and the value printed.  The text
    itself is not modelled: printing into the 32-byte buffer is taken to
    succeed, which it does as long as the text has at most 31 characters
    (for "Button_hold_duration" that is a duration below 10^7 ticks). *)

Inductive message : Type :=
| Msg_Button (count : Z)                (* "Button: %d" *)
| Msg_Button_hold (count : Z)           (* "Button_hold: %d" *)
| Msg_Button_hold_duration (ms : Z)     (* "Button_hold_duration: %d\r\n" *)
| Msg_Battery (voltage : F32.float)     (* "Battery: %.2f\r\n" *)
| Msg_Temperature (celsius : F32.float) (* "Temperature: %.2f\r\n" *)
| Msg_Orientation (face : Z).           (* "Orientation: %d\r\n" *)

Inductive effect : Type :=
| Led_set_mode_off
| Led_pulse (ms : tick)
| Uart_init
| Uart_write (m : message).

(** ** Dice (SDK module twr_dice, not among the sources)

    The application owns one [twr_dice_t] object, initialises it with a
    face, feeds it the three acceleration components and asks it for the
    current face.  The object is kept abstract: the handlers are embedded
    over any implementation of the three calls. *)

Class Dice : Type := {
  twr_dice_t : Type;
  twr_dice_init : twr_dice_face_t -> twr_dice_t;
  twr_dice_feed_vectors :
    twr_dice_t -> F32.float -> F32.float -> F32.float -> twr_dice_t;
  twr_dice_get_face : twr_dice_t -> twr_dice_face_t
}.

(** ** Scheduler (SDK module twr_scheduler, not among the sources) *)

(** The task functions the application registers. *)
Inductive task_fn : Type :=
| Task_exit_service_mode.

Record task : Type := mkTask {
  task_handler : task_fn;
  task_due : tick;
  task_interval : option tick;   (* [None]: one-shot *)
  task_active : bool
}.

Record scheduler : Type := mkScheduler {
  sched_capacity : nat;
  sched_tasks : list task;       (* indexed by task id *)
  sched_current : nat            (* id of the task being run *)
}.

Definition set_sched_tasks (l : list task) (s : scheduler) : scheduler :=
  {| sched_capacity := sched_capacity s;
     sched_tasks := l;
     sched_current := sched_current s |}.

Definition set_sched_current (id : nat) (s : scheduler) : scheduler :=
  {| sched_capacity := sched_capacity s;
     sched_tasks := sched_tasks s;
     sched_current := id |}.

Fixpoint update_task (id : nat) (f : task -> task) (l : list task)
  : list task :=
  match l, id with
  | [], _ => []
  | t :: r, O => f t :: r
  | t :: r, S id' => t :: update_task id' f r
  end.

Definition deactivate (t : task) : task :=
  {| task_handler := task_handler t;
     task_due := task_due t;
     task_interval := task_interval t;
     task_active := false |}.

Definition postpone (due : tick) (t : task) : task :=
  {| task_handler := task_handler t;
     task_due := due;
     task_interval := task_interval t;
     task_active := task_active t |}.

(** Modelled from the spec: [twr_scheduler_register] (twr_scheduler.c is
    missing).  Spec 4.1: [register(handler, param, delay)] creates a task
    due at [now + delay] and fails only when the fixed-capacity table is
    exhausted.  The opaque parameter is always [NULL] here and is left out;
    the result is the new table and the task id, [None] on
    CapacityExceeded. *)
Definition twr_scheduler_register
    (h : task_fn) (now delay : tick) (s : scheduler)
  : scheduler * option nat :=
  if (length (sched_tasks s) <? sched_capacity s)%nat
  then (set_sched_tasks
          (sched_tasks s ++ [mkTask h (tick_add now delay) None true]) s,
        Some (length (sched_tasks s)))
  else (s, None).

(** Modelled from the spec: [twr_scheduler_unregister] (twr_scheduler.c is
    missing).  Spec 4.1 and 9: deactivation flips the liveness flag of the
    slot; on an inactive or unknown id it changes nothing. *)
Definition twr_scheduler_unregister (id : nat) (s : scheduler) : scheduler :=
  set_sched_tasks (update_task id deactivate (sched_tasks s)) s.

(** Modelled from the spec: [twr_scheduler_get_current_task_id]
    (twr_scheduler.c is missing): the id of the task whose handler runs. *)
Definition twr_scheduler_get_current_task_id (s : scheduler) : nat :=
  sched_current s.

(** The snapshot of due tasks (spec 4.1): every active task with
    [due <= now], in non-decreasing due order, ties in registration
    order. *)
Fixpoint insert_by_due (x : tick * nat) (l : list (tick * nat))
  : list (tick * nat) :=
  match l with
  | [] => [x]
  | y :: r => if fst x <? fst y then x :: l else y :: insert_by_due x r
  end.

Fixpoint due_entries (now : tick) (id : nat) (l : list task)
  : list (tick * nat) :=
  match l with
  | [] => []
  | t :: r =>
      if task_active t && (task_due t <=? now)
      then (task_due t, id) :: due_entries now (S id) r
      else due_entries now (S id) r
  end.

Definition due_snapshot (now : tick) (s : scheduler) : list nat :=
  map snd
    (fold_left (fun acc x => insert_by_due x acc)
       (due_entries now 0 (sched_tasks s)) []).

(** ** Node state

    The file-scope variables of application.c, the two function-local
    statics ([last_published_temperature], [last_face]), the update
    intervals held by the SDK sensor objects, the dice object, the
    scheduler, and the trace of LED and UART calls made so far (oldest
    first). *)

Section Node.

Context {D : Dice}.

Record node : Type := mkNode {
  button_click_count : N;                      (* uint16_t *)
  button_hold_count : N;                       (* uint16_t *)
  tick_start_button_press : tick;
  button_hold_event : bool;
  tick_temperature_report : tick;
  last_published_temperature : F32.float;
  last_face : twr_dice_face_t;
  dice : twr_dice_t;
  tmp112_update_interval : tick;
  lis2dh12_update_interval : tick;
  battery_update_interval : tick;
  sched : scheduler;
  trace : list effect
}.

Definition set_button_click_count (v : N) (st : node) : node :=
  mkNode v (button_hold_count st) (tick_start_button_press st)
    (button_hold_event st) (tick_temperature_report st)
    (last_published_temperature st) (last_face st) (dice st)
    (tmp112_update_interval st) (lis2dh12_update_interval st)
    (battery_update_interval st) (sched st) (trace st).

Definition set_button_hold_count (v : N) (st : node) : node :=
  mkNode (button_click_count st) v (tick_start_button_press st)
    (button_hold_event st) (tick_temperature_report st)
    (last_published_temperature st) (last_face st) (dice st)
    (tmp112_update_interval st) (lis2dh12_update_interval st)
    (battery_update_interval st) (sched st) (trace st).

Definition set_tick_start_button_press (v : tick) (st : node) : node :=
  mkNode (button_click_count st) (button_hold_count st) v
    (button_hold_event st) (tick_temperature_report st)
    (last_published_temperature st) (last_face st) (dice st)
    (tmp112_update_interval st) (lis2dh12_update_interval st)
    (battery_update_interval st) (sched st) (trace st).

Definition set_button_hold_event (v : bool) (st : node) : node :=
  mkNode (button_click_count st) (button_hold_count st)
    (tick_start_button_press st) v (tick_temperature_report st)
    (last_published_temperature st) (last_face st) (dice st)
    (tmp112_update_interval st) (lis2dh12_update_interval st)
    (battery_update_interval st) (sched st) (trace st).

Definition set_tick_temperature_report (v : tick) (st : node) : node :=
  mkNode (button_click_count st) (button_hold_count st)
    (tick_start_button_press st) (button_hold_event st) v
    (last_published_temperature st) (last_face st) (dice st)
    (tmp112_update_interval st) (lis2dh12_update_interval st)
    (battery_update_interval st) (sched st) (trace st).

Definition set_last_published_temperature (v : F32.float) (st : node)
  : node :=
  mkNode (button_click_count st) (button_hold_count st)
    (tick_start_button_press st) (button_hold_event st)
    (tick_temperature_report st) v (last_face st) (dice st)
    (tmp112_update_interval st) (lis2dh12_update_interval st)
    (battery_update_interval st) (sched st) (trace st).

Definition set_last_face (v : twr_dice_face_t) (st : node) : node :=
  mkNode (button_click_count st) (button_hold_count st)
    (tick_start_button_press st) (button_hold_event st)
    (tick_temperature_report st) (last_published_temperature st) v
    (dice st) (tmp112_update_interval st) (lis2dh12_update_interval st)
    (battery_update_interval st) (sched st) (trace st).

Definition set_dice (v : twr_dice_t) (st : node) : node :=
  mkNode (button_click_count st) (button_hold_count st)
    (tick_start_button_press st) (button_hold_event st)
    (tick_temperature_report st) (last_published_temperature st)
    (last_face st) v (tmp112_update_interval st)
    (lis2dh12_update_interval st) (battery_update_interval st) (sched st)
    (trace st).

Definition set_sched (v : scheduler) (st : node) : node :=
  mkNode (button_click_count st) (button_hold_count st)
    (tick_start_button_press st) (button_hold_event st)
    (tick_temperature_report st) (last_published_temperature st)
    (last_face st) (dice st) (tmp112_update_interval st)
    (lis2dh12_update_interval st) (battery_update_interval st) v
    (trace st).

Definition set_trace (v : list effect) (st : node) : node :=
  mkNode (button_click_count st) (button_hold_count st)
    (tick_start_button_press st) (button_hold_event st)
    (tick_temperature_report st) (last_published_temperature st)
    (last_face st) (dice st) (tmp112_update_interval st)
    (lis2dh12_update_interval st) (battery_update_interval st) (sched st)
    v.

(** *** SDK calls that only store a setting or produce output *)

Definition twr_tmp112_set_update_interval (v : tick) (st : node) : node :=
  mkNode (button_click_count st) (button_hold_count st)
    (tick_start_button_press st) (button_hold_event st)
    (tick_temperature_report st) (last_published_temperature st)
    (last_face st) (dice st) v (lis2dh12_update_interval st)
    (battery_update_interval st) (sched st) (trace st).

Definition twr_lis2dh12_set_update_interval (v : tick) (st : node)
  : node :=
  mkNode (button_click_count st) (button_hold_count st)
    (tick_start_button_press st) (button_hold_event st)
    (tick_temperature_report st) (last_published_temperature st)
    (last_face st) (dice st) (tmp112_update_interval st) v
    (battery_update_interval st) (sched st) (trace st).

Definition twr_module_battery_set_update_interval (v : tick) (st : node)
  : node :=
  mkNode (button_click_count st) (button_hold_count st)
    (tick_start_button_press st) (button_hold_event st)
    (tick_temperature_report st) (last_published_temperature st)
    (last_face st) (dice st) (tmp112_update_interval st)
    (lis2dh12_update_interval st) v (sched st) (trace st).

Definition emit (e : effect) (st : node) : node :=
  set_trace (trace st ++ [e]) st.

Definition twr_led_pulse (ms : tick) : node -> node := emit (Led_pulse ms).
Definition twr_uart_write (m : message) : node -> node :=
  emit (Uart_write m).

(** *** button_event_handler (application.c, lines 41-90)

    [now] is the value [twr_tick_get] returns in the PRESS and RELEASE
    branches. *)
Definition button_event_handler
    (event : twr_button_event_t) (now : tick) (st : node) : node :=
  match event with
  | TWR_BUTTON_EVENT_CLICK =>
      let st := twr_led_pulse 100 st in
      let st := set_button_click_count
                  (uint16_incr (button_click_count st)) st in
      twr_uart_write (Msg_Button (Z.of_N (button_click_count st))) st
  | TWR_BUTTON_EVENT_HOLD =>
      let st := twr_led_pulse 250 st in
      let st := set_button_hold_count
                  (uint16_incr (button_hold_count st)) st in
      let st := twr_uart_write
                  (Msg_Button_hold (Z.of_N (button_hold_count st))) st in
      set_button_hold_event true st
  | TWR_BUTTON_EVENT_PRESS =>
      let st := set_button_hold_event false st in
      set_tick_start_button_press now st
  | TWR_BUTTON_EVENT_RELEASE =>
      if button_hold_event st
      then
        let hold_duration :=
          int_of_tick (tick_sub now (tick_start_button_press st)) in
        twr_uart_write (Msg_Button_hold_duration hold_duration) st
      else st
  end.

(** *** battery_event_handler (lines 93-108)

    [reading] is the result of [twr_module_battery_get_voltage]: [None]
    when it returns false. *)
Definition battery_event_handler
    (event : twr_module_battery_event_t) (reading : option F32.float)
    (st : node) : node :=
  match event with
  | TWR_MODULE_BATTERY_EVENT_UPDATE =>
      match reading with
      | Some voltage => twr_uart_write (Msg_Battery voltage) st
      | None => st
      end
  | _ => st
  end.

(** *** tmp112_event_handler (lines 111-164)

    [reading] is the result of [twr_tmp112_get_temperature_celsius];
    [now] is the value of the [twr_tick_get] call of line 125 and [now']
    the value of the call of line 153. *)
Definition ever_published (st : node) : bool :=
  F32.ne (last_published_temperature st) F32.NAN.

Definition tmp112_publish (temperature : F32.float) (now : tick) (st : node)
  : bool :=
  let publish := false in
  let publish :=
    if tick_temperature_report st <=? now then true else publish in
  let publish :=
    if ever_published st
    then
      if F32.ge
           (F32.fabsf (F32.sub temperature (last_published_temperature st)))
           TEMPERATURE_PUB_DIFFERENCE
      then true else publish
    else publish in
  publish.

Definition tmp112_event_handler
    (event : twr_tmp112_event_t) (reading : option F32.float)
    (now now' : tick) (st : node) : node :=
  match event with
  | TWR_TMP112_EVENT_UPDATE =>
      match reading with
      | Some temperature =>
          if tmp112_publish temperature now st
          then
            let st := twr_uart_write (Msg_Temperature temperature) st in
            let st := set_tick_temperature_report
                        (tick_add now' TEMPERATURE_PUB_INTERVAL) st in
            set_last_published_temperature temperature st
          else st
      | None => st
      end
  | TWR_TMP112_EVENT_ERROR => st
  end.

(** *** lis2dh12_event_handler (lines 167-205)

    [reading] is the result of [twr_lis2dh12_get_result_g]. *)
Definition lis2dh12_event_handler
    (event : twr_lis2dh12_event_t) (reading : option twr_lis2dh12_result_g_t)
    (st : node) : node :=
  match event with
  | TWR_LIS2DH12_EVENT_UPDATE =>
      match reading with
      | Some result =>
          let st := set_dice
                      (twr_dice_feed_vectors (dice st) (x_axis result)
                         (y_axis result) (z_axis result)) st in
          let face := twr_dice_get_face (dice st) in
          if negb (face_eqb (last_face st) face)
          then
            let st := set_last_face face st in
            let orientation := int_of_face face in
            twr_uart_write (Msg_Orientation orientation) st
          else st
      | None => st
      end
  | _ => st
  end.

(** *** exit_service_mode_task (lines 208-218) *)
Definition exit_service_mode_task (st : node) : node :=
  let st := twr_tmp112_set_update_interval
              TEMPERATURE_UPDATE_NORMAL_INTERVAL st in
  let st := twr_lis2dh12_set_update_interval
              ACCELEROMETER_UPDATE_NORMAL_INTERVAL st in
  set_sched
    (twr_scheduler_unregister
       (twr_scheduler_get_current_task_id (sched st)) (sched st)) st.

(** *** application_init (lines 220-254)

    [power_on] holds the static initialisers (the dice object and the
    sensor settings are overwritten by [application_init] before any use);
    [now] is the tick at which the scheduler records the registration.
    The return value of [twr_scheduler_register] is ignored, as in the
    source.  The [..._init] and [..._set_event_handler] calls decide which
    handler receives which events; that wiring is [dispatch] below. *)
Definition power_on (capacity : nat) : node :=
  {| button_click_count := 0;
     button_hold_count := 0;
     tick_start_button_press := 0;
     button_hold_event := false;
     tick_temperature_report := 0;
     last_published_temperature := F32.NAN;
     last_face := TWR_DICE_FACE_UNKNOWN;
     dice := twr_dice_init TWR_DICE_FACE_UNKNOWN;
     tmp112_update_interval := 0;
     lis2dh12_update_interval := 0;
     battery_update_interval := 0;
     sched := mkScheduler capacity [] 0;
     trace := [] |}.

Definition application_init (now : tick) (st : node) : node :=
  let st := emit Led_set_mode_off st in
  let st := twr_module_battery_set_update_interval
              BATTERY_UPDATE_INTERVAL st in
  let st := twr_tmp112_set_update_interval
              TEMPERATURE_UPDATE_SERVICE_INTERVAL st in
  let st := twr_lis2dh12_set_update_interval
              ACCELEROMETER_UPDATE_SERVICE_INTERVAL st in
  let st := set_dice (twr_dice_init TWR_DICE_FACE_UNKNOWN) st in
  let st := set_sched
              (fst (twr_scheduler_register Task_exit_service_mode now
                      SERVICE_MODE_INTERVAL (sched st))) st in
  let st := emit Uart_init st in
  twr_led_pulse 2000 st.

(** ** Running the scheduler *)

Definition run_task (h : task_fn) : node -> node :=
  match h with
  | Task_exit_service_mode => exit_service_mode_task
  end.

(** After its handler returns, a task that is still active is rescheduled
    at [previous_due + interval] when it is recurring and retired when it
    is one-shot. *)
Definition settle_task (id : nat) (due : tick) (s : scheduler) : scheduler :=
  match nth_error (sched_tasks s) id with
  | Some t =>
      if task_active t
      then
        match task_interval t with
        | Some i =>
            set_sched_tasks
              (update_task id (postpone (tick_add due i)) (sched_tasks s)) s
        | None => twr_scheduler_unregister id s
        end
      else s
  | None => s
  end.

Definition invoke_task (id : nat) (st : node) : node :=
  match nth_error (sched_tasks (sched st)) id with
  | Some t =>
      if task_active t
      then
        let st := set_sched (set_sched_current id (sched st)) st in
        let st := run_task (task_handler t) st in
        set_sched (settle_task id (task_due t) (sched st)) st
      else st
  | None => st
  end.

(** Modelled from the spec: the scheduler's [run_due] (twr_scheduler.c is
    missing).  Spec 4.1: take the snapshot of the active tasks with
    [due <= now], invoke each once in due order, skip a task that an
    earlier handler of the same pass has unregistered. *)
Definition twr_scheduler_run_due (now : tick) (st : node) : node :=
  fold_left (fun st id => invoke_task id st)
    (due_snapshot now (sched st)) st.

(** ** The node as a transition system

    One constructor per callback the SDK can make into the application,
    with the values the callback obtains from the SDK while it runs. *)

Inductive event : Type :=
| Ev_button (e : twr_button_event_t) (now : tick)
| Ev_battery (e : twr_module_battery_event_t) (reading : option F32.float)
| Ev_tmp112 (e : twr_tmp112_event_t) (reading : option F32.float)
    (now now' : tick)
| Ev_lis2dh12 (e : twr_lis2dh12_event_t)
    (reading : option twr_lis2dh12_result_g_t)
| Ev_run_due (now : tick).

Definition dispatch (ev : event) (st : node) : node :=
  match ev with
  | Ev_button e now => button_event_handler e now st
  | Ev_battery e reading => battery_event_handler e reading st
  | Ev_tmp112 e reading now now' =>
      tmp112_event_handler e reading now now' st
  | Ev_lis2dh12 e reading => lis2dh12_event_handler e reading st
  | Ev_run_due now => twr_scheduler_run_due now st
  end.

Definition run (evs : list event) (st : node) : node :=
  fold_left (fun st ev => dispatch ev st) evs st.

(** The state right after start-up at tick [t0]. *)
Definition boot (capacity : nat) (t0 : tick) : node :=
  application_init t0 (power_on capacity).

End Node.

(** ** Button driver (SDK module twr_button, not among the sources) *)

Inductive button_phase : Type :=
| Idle
| Pressed
| HeldReported.

Record button_fsm : Type := mkButtonFsm {
  phase : button_phase;
  hold_timer : option tick       (* due tick of the armed hold task *)
}.

Inductive button_input : Type :=
| Edge_press
| Edge_release
| Timer_scan.

(** Modelled from the spec: the driver that turns pin edges and the hold
    timer into the events handed to [button_event_handler] (twr_button.c is
    missing).  Spec 4.2: Press in Idle arms the one-shot hold timer for the
    hold threshold and reports the press; the timer elapsing while Pressed
    reports the hold; Release while Pressed reports the release and a
    click; Release after a reported hold reports the release only; every
    Release disarms the timer; nothing else causes a transition. *)
Definition button_fsm_step
    (hold_time : tick) (i : button_input) (now : tick) (b : button_fsm)
  : button_fsm * list twr_button_event_t :=
  match phase b, i with
  | Idle, Edge_press =>
      (mkButtonFsm Pressed (Some (tick_add now hold_time)),
       [TWR_BUTTON_EVENT_PRESS])
  | Pressed, Timer_scan =>
      match hold_timer b with
      | Some due =>
          if due <=? now
          then (mkButtonFsm HeldReported None, [TWR_BUTTON_EVENT_HOLD])
          else (b, [])
      | None => (b, [])
      end
  | Pressed, Edge_release =>
      (mkButtonFsm Idle None,
       [TWR_BUTTON_EVENT_RELEASE; TWR_BUTTON_EVENT_CLICK])
  | HeldReported, Edge_release =>
      (mkButtonFsm Idle None, [TWR_BUTTON_EVENT_RELEASE])
  | _, _ => (b, [])
  end.

Definition button_idle : button_fsm := mkButtonFsm Idle None.

Section ButtonComponent.

Context {D : Dice}.
Variable hold_time : tick.

(** The button component: the driver followed by the handler of
    application.c on each event the driver reports. *)
Definition button_feed (p : button_fsm * node) (i : button_input * tick)
  : button_fsm * node :=
  let '(b', evs) := button_fsm_step hold_time (fst i) (snd i) (fst p) in
  (b', run (map (fun e => Ev_button e (snd i)) evs) (snd p)).

Definition button_run (inputs : list (button_input * tick))
    (p : button_fsm * node) : button_fsm * node :=
  fold_left button_feed inputs p.

End ButtonComponent.

(** ** A dice implementation for concrete runs *)

(** Modelled from the spec: the classifier behind [twr_dice_feed_vectors]
    and [twr_dice_get_face] (twr_dice.c is missing).  Spec 4.5: the axis
    with the largest magnitude decides, its sign selects one of the two
    faces of the axis, and the face is Unknown when no axis reaches the
    minimum magnitude (a NaN component compares false everywhere and gives
    Unknown).  Face 1 is the one with +Z up; opposite faces add up to 7. *)
Definition classify (threshold x y z : F32.float) : twr_dice_face_t :=
  let ax := F32.fabsf x in
  let ay := F32.fabsf y in
  let az := F32.fabsf z in
  let negative v := SFltb v (S754_zero false) in
  if F32.ge az threshold && F32.ge az ax && F32.ge az ay
  then if negative z then TWR_DICE_FACE_6 else TWR_DICE_FACE_1
  else if F32.ge ax threshold && F32.ge ax ay && F32.ge ax az
  then if negative x then TWR_DICE_FACE_5 else TWR_DICE_FACE_2
  else if F32.ge ay threshold && F32.ge ay ax && F32.ge ay az
  then if negative y then TWR_DICE_FACE_4 else TWR_DICE_FACE_3
  else TWR_DICE_FACE_UNKNOWN.

Definition spec_dice (threshold : F32.float) : Dice :=
  {| twr_dice_t := twr_dice_face_t;
     twr_dice_init := fun f => f;
     twr_dice_feed_vectors := fun _ x y z => classify threshold x y z;
     twr_dice_get_face := fun d => d |}.

Definition half_g_dice : Dice := spec_dice (F32.of_ratio 1 2).

(** ** Reading the trace *)

Definition written (e : effect) : option message :=
  match e with
  | Uart_write m => Some m
  | _ => None
  end.

(** The messages written to the UART, oldest first. *)
Fixpoint messages (tr : list effect) : list message :=
  match tr with
  | [] => []
  | e :: r =>
      match written e with
      | Some m => m :: messages r
      | None => messages r
      end
  end.

Definition temperature_of (m : message) : option F32.float :=
  match m with
  | Msg_Temperature v => Some v
  | _ => None
  end.

Definition orientation_of (m : message) : option Z :=
  match m with
  | Msg_Orientation o => Some o
  | _ => None
  end.

(** The value carried by the last (resp. first) message of a kind. *)
Fixpoint last_of {A : Type} (pick : message -> option A) (l : list message)
  : option A :=
  match l with
  | [] => None
  | m :: r =>
      match last_of pick r with
      | Some a => Some a
      | None => pick m
      end
  end.

Fixpoint first_of {A : Type} (pick : message -> option A) (l : list message)
  : option A :=
  match l with
  | [] => None
  | m :: r =>
      match pick m with
      | Some a => Some a
      | None => first_of pick r
      end
  end.

Definition last_emitted (tr : list effect) : option F32.float :=
  last_of temperature_of (messages tr).

Definition last_reported (tr : list effect) : option Z :=
  last_of orientation_of (messages tr).

Definition first_reported (tr : list effect) : option Z :=
  first_of orientation_of (messages tr).

(** Number of button events of a kind in an event list. *)
Definition is_button_event (k : twr_button_event_t) (ev : event) : bool :=
  match ev, k with
  | Ev_button TWR_BUTTON_EVENT_CLICK _, TWR_BUTTON_EVENT_CLICK
  | Ev_button TWR_BUTTON_EVENT_HOLD _, TWR_BUTTON_EVENT_HOLD
  | Ev_button TWR_BUTTON_EVENT_PRESS _, TWR_BUTTON_EVENT_PRESS
  | Ev_button TWR_BUTTON_EVENT_RELEASE _, TWR_BUTTON_EVENT_RELEASE => true
  | _, _ => false
  end.

Definition count_button (k : twr_button_event_t) (evs : list event) : N :=
  N.of_nat (length (filter (is_button_event k) evs)).

(** ** The counters as the specification words them

    A counter that clamps at the largest value of its type, to be compared
    with [uint16_incr]. *)
Definition saturating_incr (n : N) : N := N.min (n + 1) UINT16_MAX.

(** ** Observations on a state, used to word the properties *)

(** The slot of the task registered by [application_init]. *)
Definition service_task (due : tick) (active : bool) : task :=
  mkTask Task_exit_service_mode due None active.

(** A run of scheduler passes seen by the button driver. *)
Definition scans (ts : list tick) : list (button_input * tick) :=
  map (fun t => (Timer_scan, t)) ts.

Section Observations.

Context {D : Dice}.

(** Everything except the two sensor intervals and the scheduler. *)
Definition app_frame (st : node) :=
  (button_click_count st, button_hold_count st, tick_start_button_press st,
   button_hold_event st, tick_temperature_report st,
   last_published_temperature st, last_face st, dice st,
   battery_update_interval st, trace st).

(** The sensor settings and the scheduler. *)
Definition config (st : node) :=
  (tmp112_update_interval st, lis2dh12_update_interval st,
   battery_update_interval st, sched st).

(** The two variables of the gate against the messages written so far:
    before the first temperature message they still hold their
    initialisers, afterwards the static holds the last value written. *)
Definition gate_inv (st : node) : Prop :=
  match last_emitted (trace st) with
  | None =>
      last_published_temperature st = F32.NAN /\
      tick_temperature_report st = 0
  | Some v => last_published_temperature st = v
  end.

(** [last_face] against the orientation messages written so far: it is
    the face of the last one, and Unknown as long as there is none; the
    first message, once there is one, does not report Unknown. *)
Definition face_inv (st : node) : Prop :=
  match last_reported (trace st) with
  | None => last_face st = TWR_DICE_FACE_UNKNOWN
  | Some o => o = int_of_face (last_face st)
  end /\
  match first_reported (trace st) with
  | None => last_face st = TWR_DICE_FACE_UNKNOWN
  | Some o => o <> int_of_face TWR_DICE_FACE_UNKNOWN
  end.

(** A dice that classifies a sample the same way when it is fed twice in
    a row. *)
Definition feed_idempotent : Prop :=
  forall (d : twr_dice_t) (x y z : F32.float),
    twr_dice_get_face
      (twr_dice_feed_vectors (twr_dice_feed_vectors d x y z) x y z) =
    twr_dice_get_face (twr_dice_feed_vectors d x y z).

(** Service mode: the task of [application_init] is still registered and
    both sensors have the service interval.  Normal mode: the task is
    unregistered and both sensors have the normal interval. *)
Definition in_service_mode (due : tick) (st : node) : Prop :=
  sched_tasks (sched st) = [service_task due true] /\
  tmp112_update_interval st = TEMPERATURE_UPDATE_SERVICE_INTERVAL /\
  lis2dh12_update_interval st = ACCELEROMETER_UPDATE_SERVICE_INTERVAL.

Definition in_normal_mode (due : tick) (st : node) : Prop :=
  sched_tasks (sched st) = [service_task due false] /\
  tmp112_update_interval st = TEMPERATURE_UPDATE_NORMAL_INTERVAL /\
  lis2dh12_update_interval st = ACCELEROMETER_UPDATE_NORMAL_INTERVAL.

End Observations.

(** ** Concrete inputs

    The samples of the worked example of the publish gate: 21.50, then
    21.55 (0.05 away), then 21.75 (0.25 away from 21.50). *)
Definition sample_21_50 : F32.float := F32.of_ratio 2150 100.
Definition sample_21_55 : F32.float := F32.of_ratio 2155 100.
Definition sample_21_75 : F32.float := F32.of_ratio 2175 100.

(** The node with the dice that needs half a g on the dominant axis,
    thirty-two scheduler slots, started at tick 0. *)
Definition node0 : @node half_g_dice := @boot half_g_dice 32 0.

Definition click0 : event := Ev_button TWR_BUTTON_EVENT_CLICK 0.

Definition flat_up : twr_lis2dh12_result_g_t :=
  mkResultG (F32.of_Z 0) (F32.of_Z 0) (F32.of_Z 1).

Definition free_fall : twr_lis2dh12_result_g_t :=
  mkResultG (F32.of_Z 0) (F32.of_Z 0) (F32.of_Z 0).

(** ** More readings of the trace and of the events *)

Definition button_of (m : message) : option Z :=
  match m with
  | Msg_Button n => Some n
  | _ => None
  end.

Definition button_hold_of (m : message) : option Z :=
  match m with
  | Msg_Button_hold n => Some n
  | _ => None
  end.

Definition battery_of (m : message) : option F32.float :=
  match m with
  | Msg_Battery v => Some v
  | _ => None
  end.

(** The values carried by all the messages of a kind, oldest first. *)
Fixpoint pick_all {A : Type} (pick : message -> option A) (l : list message)
  : list A :=
  match l with
  | [] => []
  | m :: r =>
      match pick m with
      | Some a => a :: pick_all pick r
      | None => pick_all pick r
      end
  end.

(** The 16-bit counter values 1, 2, ..., [k], each modulo 2^16. *)
Definition numbered (k : nat) : list Z :=
  map (fun i => Z.of_N (N.of_nat i mod 2 ^ 16)) (seq 1 k).

(** No two neighbours of the list are equal. *)
Fixpoint no_repeat (l : list Z) : bool :=
  match l with
  | [] => true
  | a :: r =>
      match r with
      | [] => true
      | b :: _ => negb (a =? b)%Z && no_repeat r
      end
  end.

(** The voltages of the battery updates that were read successfully. *)
Definition battery_reading (ev : event) : list F32.float :=
  match ev with
  | Ev_battery TWR_MODULE_BATTERY_EVENT_UPDATE (Some v) => [v]
  | _ => []
  end.

Definition battery_readings (evs : list event) : list F32.float :=
  flat_map battery_reading evs.

(** The button events that write [button_hold_event]. *)
Definition sets_hold_flag (ev : event) : bool :=
  match ev with
  | Ev_button TWR_BUTTON_EVENT_PRESS _
  | Ev_button TWR_BUTTON_EVENT_HOLD _ => true
  | _ => false
  end.

Section Components.

Context {D : Dice}.

(** The variables of each component. *)
Definition button_vars (st : node) :=
  (button_click_count st, button_hold_count st, tick_start_button_press st,
   button_hold_event st).

Definition gate_vars (st : node) :=
  (tick_temperature_report st, last_published_temperature st).

Definition face_vars (st : node) := (last_face st, dice st).

(** What one event appends to the trace, read off the handlers. *)
Definition output (ev : event) (st : node) : list effect :=
  match ev with
  | Ev_button TWR_BUTTON_EVENT_CLICK _ =>
      [Led_pulse 100;
       Uart_write
         (Msg_Button (Z.of_N (uint16_incr (button_click_count st))))]
  | Ev_button TWR_BUTTON_EVENT_HOLD _ =>
      [Led_pulse 250;
       Uart_write
         (Msg_Button_hold (Z.of_N (uint16_incr (button_hold_count st))))]
  | Ev_button TWR_BUTTON_EVENT_PRESS _ => []
  | Ev_button TWR_BUTTON_EVENT_RELEASE now =>
      if button_hold_event st
      then [Uart_write
              (Msg_Button_hold_duration
                 (int_of_tick (tick_sub now (tick_start_button_press st))))]
      else []
  | Ev_battery e r =>
      map (fun v => Uart_write (Msg_Battery v))
        (battery_reading (Ev_battery e r))
  | Ev_tmp112 TWR_TMP112_EVENT_UPDATE (Some v) now _ =>
      if tmp112_publish v now st
      then [Uart_write (Msg_Temperature v)]
      else []
  | Ev_tmp112 _ _ _ _ => []
  | Ev_lis2dh12 TWR_LIS2DH12_EVENT_UPDATE (Some r) =>
      let face :=
        twr_dice_get_face
          (twr_dice_feed_vectors (dice st) (x_axis r) (y_axis r)
             (z_axis r)) in
      if face_eqb (last_face st) face
      then []
      else [Uart_write (Msg_Orientation (int_of_face face))]
  | Ev_lis2dh12 _ _ => []
  | Ev_run_due _ => []
  end.

(** A temperature sample that neither reaches the report tick nor is 0.2
    away from the last published value. *)
Definition quiet (st : node) (s : F32.float * tick) : bool :=
  negb (tick_temperature_report st <=? snd s) &&
  negb (F32.ge
          (F32.fabsf (F32.sub (fst s) (last_published_temperature st)))
          TEMPERATURE_PUB_DIFFERENCE).

Definition sample_event (s : F32.float * tick) : event :=
  Ev_tmp112 TWR_TMP112_EVENT_UPDATE (Some (fst s)) (snd s) (snd s).

End Components.

(** The successful temperature samples of a run arrive in order: each at
    or after the tick at which the previous one finished, the second tick
    read of a sample not before the first, and far from the wrap of the
    tick counter.  [last] is the tick at which the previous sample
    finished. *)
Fixpoint samples_ordered (last : tick) (evs : list event) : bool :=
  match evs with
  | [] => true
  | Ev_tmp112 TWR_TMP112_EVENT_UPDATE (Some _) now now' :: r =>
      (last <=? now) && (now <=? now') &&
      (now' + TEMPERATURE_PUB_INTERVAL <? TICK_MOD) &&
      samples_ordered now' r
  | _ :: r => samples_ordered last r
  end.

(** The tick at which the last successful temperature sample finished. *)
Fixpoint last_sample_tick (last : tick) (evs : list event) : tick :=
  match evs with
  | [] => last
  | Ev_tmp112 TWR_TMP112_EVENT_UPDATE (Some _) _ now' :: r =>
      last_sample_tick now' r
  | _ :: r => last_sample_tick last r
  end.

(** ** The text of the integer messages

    What [sprintf] puts into [char buffer[32]] for the four formats that
    print an [int] with [%d].  The two [%.2f] formats are not rendered. *)

Module Text.

Import Ascii String.

Definition digit (d : N) : ascii := ascii_of_N (48 + d).

(** The decimal digits of [n], most significant first; [fuel] bounds the
    number of digits. *)
Fixpoint decimal (fuel : nat) (n : N) : string :=
  match fuel with
  | O => EmptyString
  | S f =>
      if n <? 10
      then String (digit n) EmptyString
      else (decimal f (n / 10) ++ String (digit (n mod 10)) EmptyString)%string
  end.

(** [%d] of an [int]: at most ten digits, preceded by a minus sign when
    negative. *)
Definition print_d (z : Z) : string :=
  if (z <? 0)%Z
  then String "-" (decimal 10 (Z.to_N (- z)))
  else decimal 10 (Z.to_N z).

Definition CRLF : string :=
  String (ascii_of_N 13) (String (ascii_of_N 10) EmptyString).

Definition text_of (m : message) : option string :=
  match m with
  | Msg_Button n => Some ("Button: " ++ print_d n)%string
  | Msg_Button_hold n => Some ("Button_hold: " ++ print_d n)%string
  | Msg_Button_hold_duration d =>
      Some ("Button_hold_duration: " ++ print_d d ++ CRLF)%string
  | Msg_Orientation o => Some ("Orientation: " ++ print_d o ++ CRLF)%string
  | Msg_Battery _ | Msg_Temperature _ => None
  end.

(** [sprintf] writes the text and a terminating NUL. *)
Definition bytes_written (s : string) : nat := S (length s).

Definition BUFFER_SIZE : nat := 32.

(** The text of the first "Button" message. *)
Definition button_1_text : string := "Button: 1".

End Text.

(** * DAC driver of the HAL (src/sdk/stm/hal/src/stm32l0xx_hal_dac.c)

    The functions of the file that have a body of their own: [HAL_DAC_Init],
    [HAL_DAC_DeInit], [HAL_DAC_Stop], [HAL_DAC_ConfigChannel] and the two
    getters.  (The [__weak] entry points whose content lives in
    stm32l0xx_hal_dac_ex.c only return [HAL_OK] here.)  The handle is
    passed by value and returned; [None] is the [NULL] pointer. *)

Module DAC.

Local Open Scope Z_scope.

(** ** 32-bit registers *)

Definition UINT32_MOD : Z := 2 ^ 32.

(** [x << n] and [~x] on [uint32_t]. *)
Definition shl32 (x n : Z) : Z := Z.shiftl x n mod UINT32_MOD.
Definition not32 (x : Z) : Z := Z.lnot x mod UINT32_MOD.

(** [CLEAR_BIT(REG, BIT)] is [REG &= ~(BIT)]. *)
Definition CLEAR_BIT (reg bit : Z) : Z := Z.land reg (not32 bit).

(** The masks of the channel-1 fields of the control register [CR].  They
    are declared in the device header, which is not among the sources; the
    driver is embedded over any values of them. *)
Class CR_fields : Type := {
  DAC_CR_EN1 : Z;
  DAC_CR_BOFF1 : Z;
  DAC_CR_TEN1 : Z;
  DAC_CR_TSEL1 : Z;
  DAC_CR_WAVE1 : Z;
  DAC_CR_MAMP1 : Z
}.

(** ** Types of the HAL *)

Inductive HAL_StatusTypeDef : Type :=
| HAL_OK
| HAL_ERROR
| HAL_BUSY
| HAL_TIMEOUT.

Inductive HAL_LockTypeDef : Type :=
| HAL_UNLOCKED
| HAL_LOCKED.

Inductive HAL_DAC_StateTypeDef : Type :=
| HAL_DAC_STATE_RESET
| HAL_DAC_STATE_READY
| HAL_DAC_STATE_BUSY
| HAL_DAC_STATE_TIMEOUT
| HAL_DAC_STATE_ERROR.

Definition HAL_DAC_ERROR_NONE : Z := 0.

(** [DAC_HandleTypeDef], with the one register of [Instance] the file
    accesses. *)
Record DAC_HandleTypeDef : Type := mkHandle {
  Instance_CR : Z;
  State : HAL_DAC_StateTypeDef;
  Lock : HAL_LockTypeDef;
  ErrorCode : Z
}.

Record DAC_ChannelConfTypeDef : Type := mkChannelConf {
  DAC_Trigger : Z;
  DAC_OutputBuffer : Z
}.

Definition set_Instance_CR (v : Z) (h : DAC_HandleTypeDef)
  : DAC_HandleTypeDef :=
  mkHandle v (State h) (Lock h) (ErrorCode h).

Definition set_State (v : HAL_DAC_StateTypeDef) (h : DAC_HandleTypeDef)
  : DAC_HandleTypeDef :=
  mkHandle (Instance_CR h) v (Lock h) (ErrorCode h).

Definition set_Lock (v : HAL_LockTypeDef) (h : DAC_HandleTypeDef)
  : DAC_HandleTypeDef :=
  mkHandle (Instance_CR h) (State h) v (ErrorCode h).

Definition set_ErrorCode (v : Z) (h : DAC_HandleTypeDef)
  : DAC_HandleTypeDef :=
  mkHandle (Instance_CR h) (State h) (Lock h) v.

(** [__HAL_UNLOCK(hdac)] stores [HAL_UNLOCKED] in the lock. *)
Definition HAL_UNLOCK (h : DAC_HandleTypeDef) : DAC_HandleTypeDef :=
  set_Lock HAL_UNLOCKED h.

(** ** Initialization and de-initialization (lines 237-334) *)

(** The [__weak] defaults of the file. *)
Definition HAL_DAC_MspInit (h : DAC_HandleTypeDef) : DAC_HandleTypeDef := h.
Definition HAL_DAC_MspDeInit (h : DAC_HandleTypeDef) : DAC_HandleTypeDef := h.

Definition HAL_DAC_Init (hdac : option DAC_HandleTypeDef)
  : HAL_StatusTypeDef * option DAC_HandleTypeDef :=
  match hdac with
  | None => (HAL_ERROR, None)
  | Some h =>
      let h :=
        match State h with
        | HAL_DAC_STATE_RESET =>
            let h := set_Lock HAL_UNLOCKED h in
            HAL_DAC_MspInit h
        | _ => h
        end in
      let h := set_State HAL_DAC_STATE_BUSY h in
      let h := set_ErrorCode HAL_DAC_ERROR_NONE h in
      let h := set_State HAL_DAC_STATE_READY h in
      (HAL_OK, Some h)
  end.

Definition HAL_DAC_DeInit (hdac : option DAC_HandleTypeDef)
  : HAL_StatusTypeDef * option DAC_HandleTypeDef :=
  match hdac with
  | None => (HAL_ERROR, None)
  | Some h =>
      let h := set_State HAL_DAC_STATE_BUSY h in
      let h := HAL_DAC_MspDeInit h in
      let h := set_ErrorCode HAL_DAC_ERROR_NONE h in
      let h := set_State HAL_DAC_STATE_RESET h in
      let h := HAL_UNLOCK h in
      (HAL_OK, Some h)
  end.

Section Driver.

Context {F : CR_fields}.

(** ** IO operation (lines 393-406)

    [__HAL_DAC_DISABLE(hdac, Channel)] clears [DAC_CR_EN1 << Channel] in
    [CR]. *)
Definition HAL_DAC_Stop (h : DAC_HandleTypeDef) (Channel : Z)
  : HAL_StatusTypeDef * DAC_HandleTypeDef :=
  let h := set_Instance_CR
             (CLEAR_BIT (Instance_CR h) (shl32 DAC_CR_EN1 Channel)) h in
  let h := set_State HAL_DAC_STATE_READY h in
  (HAL_OK, h).

(** ** Peripheral control (lines 597-632)

    [__HAL_LOCK(hdac)] returns [HAL_BUSY] from the function when the lock
    is taken and takes it otherwise. *)
Definition channel_fields : Z :=
  Z.lor (Z.lor (Z.lor (Z.lor DAC_CR_MAMP1 DAC_CR_WAVE1) DAC_CR_TSEL1)
           DAC_CR_TEN1) DAC_CR_BOFF1.

Definition HAL_DAC_ConfigChannel (h : DAC_HandleTypeDef)
    (sConfig : DAC_ChannelConfTypeDef) (Channel : Z)
  : HAL_StatusTypeDef * DAC_HandleTypeDef :=
  match Lock h with
  | HAL_LOCKED => (HAL_BUSY, h)
  | HAL_UNLOCKED =>
      let h := set_Lock HAL_LOCKED h in
      let h := set_State HAL_DAC_STATE_BUSY h in
      let tmpreg1 := Instance_CR h in
      let tmpreg1 := Z.land tmpreg1 (not32 (shl32 channel_fields Channel)) in
      let tmpreg2 := Z.lor (DAC_Trigger sConfig) (DAC_OutputBuffer sConfig) in
      let tmpreg1 := Z.lor tmpreg1 (shl32 tmpreg2 Channel) in
      let h := set_Instance_CR tmpreg1 h in
      let h := set_Instance_CR
                 (CLEAR_BIT (Instance_CR h) (shl32 DAC_CR_WAVE1 Channel)) h in
      let h := set_State HAL_DAC_STATE_READY h in
      let h := HAL_UNLOCK h in
      (HAL_OK, h)
  end.

(** ** Peripheral state and errors (lines 662-678) *)
Definition HAL_DAC_GetState (h : DAC_HandleTypeDef) : HAL_DAC_StateTypeDef :=
  State h.

Definition HAL_DAC_GetError (h : DAC_HandleTypeDef) : Z := ErrorCode h.

(** ** Sequences of calls on one handle *)

Inductive dac_call : Type :=
| Call_Init
| Call_DeInit
| Call_Stop (Channel : Z)
| Call_ConfigChannel (sConfig : DAC_ChannelConfTypeDef) (Channel : Z).

Definition call (c : dac_call) (h : DAC_HandleTypeDef)
  : HAL_StatusTypeDef * DAC_HandleTypeDef :=
  match c with
  | Call_Init =>
      match HAL_DAC_Init (Some h) with
      | (s, Some h') => (s, h')
      | (s, None) => (s, h)
      end
  | Call_DeInit =>
      match HAL_DAC_DeInit (Some h) with
      | (s, Some h') => (s, h')
      | (s, None) => (s, h)
      end
  | Call_Stop Channel => HAL_DAC_Stop h Channel
  | Call_ConfigChannel sConfig Channel =>
      HAL_DAC_ConfigChannel h sConfig Channel
  end.

(** The statuses returned by the calls, in order, and the final handle. *)
Fixpoint calls (cs : list dac_call) (h : DAC_HandleTypeDef)
  : list HAL_StatusTypeDef * DAC_HandleTypeDef :=
  match cs with
  | [] => ([], h)
  | c :: r =>
      let '(s, h') := call c h in
      let '(ss, h'') := calls r h' in
      (s :: ss, h'')
  end.

(** The layout the driver relies on: the enable bit of a channel is none
    of the bits [HAL_DAC_ConfigChannel] rewrites, and the wave and
    amplitude fields do not overlap the trigger and buffer fields.  A
    valid configuration only has trigger and buffer bits. *)
Definition enable_apart : Prop := Z.land DAC_CR_EN1 channel_fields = 0.

Definition fields_apart : Prop :=
  Z.land (Z.lor DAC_CR_WAVE1 DAC_CR_MAMP1)
    (Z.lor (Z.lor DAC_CR_TSEL1 DAC_CR_TEN1) DAC_CR_BOFF1) = 0.

Definition valid_config (sConfig : DAC_ChannelConfTypeDef) : Prop :=
  0 <= DAC_Trigger sConfig /\ 0 <= DAC_OutputBuffer sConfig /\
  Z.land (Z.lor (DAC_Trigger sConfig) (DAC_OutputBuffer sConfig))
    (Z.lnot (Z.lor (Z.lor DAC_CR_TSEL1 DAC_CR_TEN1) DAC_CR_BOFF1)) = 0.

End Driver.

(** The layout of [CR] on the STM32L0: EN1 is bit 0, BOFF1 bit 1, TEN1
    bit 2, TSEL1 bits 3-5, WAVE1 bits 6-7, MAMP1 bits 8-11. *)
Definition stm32l0_fields : CR_fields :=
  {| DAC_CR_EN1 := 1;
     DAC_CR_BOFF1 := 2;
     DAC_CR_TEN1 := 4;
     DAC_CR_TSEL1 := 56;
     DAC_CR_WAVE1 := 192;
     DAC_CR_MAMP1 := 3840 |}.

End DAC.

(** ** More concrete inputs *)

(** A hold that started 100 ticks before the tick counter wraps. *)
Definition near_wrap : tick := 18446744073709551516.

Definition held_near_wrap : @node half_g_dice :=
  run [Ev_button TWR_BUTTON_EVENT_PRESS near_wrap;
       Ev_button TWR_BUTTON_EVENT_HOLD 0] node0.

(** The node after its first temperature report, 21.50 at tick 1000. *)
Definition reported_21_50 : @node half_g_dice :=
  dispatch (Ev_tmp112 TWR_TMP112_EVENT_UPDATE (Some sample_21_50) 1000 1000)
    node0.

Definition two_samples : list event :=
  [Ev_tmp112 TWR_TMP112_EVENT_UPDATE (Some sample_21_50) 1000 1000;
   Ev_tmp112 TWR_TMP112_EVENT_UPDATE (Some sample_21_55) 2000 2001].

(** A DAC handle after reset, a locked one, and the configuration
    "software trigger, output buffer disabled" in the STM32L0 layout. *)
Definition dac_reset : DAC.DAC_HandleTypeDef :=
  DAC.mkHandle 0 DAC.HAL_DAC_STATE_RESET DAC.HAL_UNLOCKED 0.

Definition dac_enabled : DAC.DAC_HandleTypeDef :=
  DAC.mkHandle 65537 DAC.HAL_DAC_STATE_READY DAC.HAL_UNLOCKED 0.

Definition dac_locked : DAC.DAC_HandleTypeDef :=
  DAC.mkHandle 65537 DAC.HAL_DAC_STATE_READY DAC.HAL_LOCKED 0.

Definition software_trigger : DAC.DAC_ChannelConfTypeDef :=
  DAC.mkChannelConf 60 2.

(** * Properties *)

(** ** Lists, traces and runs *)

Lemma messages_app (a b : list effect) :
  messages (a ++ b) = messages a ++ messages b.
Proof.
  induction a as [|e a IH]; simpl; [reflexivity|].
  destruct (written e); simpl; now rewrite IH.
Qed.

Lemma last_of_app {A : Type} (pick : message -> option A) (a b : list message) :
  last_of pick (a ++ b) =
  match last_of pick b with
  | Some v => Some v
  | None => last_of pick a
  end.
Proof.
  induction a as [|m a IH]; simpl.
  - now destruct (last_of pick b).
  - rewrite IH. now destruct (last_of pick b).
Qed.

Lemma first_of_app {A : Type} (pick : message -> option A) (a b : list message) :
  first_of pick (a ++ b) =
  match first_of pick a with
  | Some v => Some v
  | None => first_of pick b
  end.
Proof.
  induction a as [|m a IH]; simpl; [reflexivity|].
  now destruct (pick m).
Qed.

Lemma face_eqb_eq (a b : twr_dice_face_t) : face_eqb a b = true <-> a = b.
Proof. destruct a, b; simpl; split; congruence. Qed.

Lemma face_eqb_refl (a : twr_dice_face_t) : face_eqb a a = true.
Proof. now apply face_eqb_eq. Qed.

Lemma int_of_face_inj (a b : twr_dice_face_t) :
  int_of_face a = int_of_face b -> a = b.
Proof. destruct a, b; simpl; congruence. Qed.

Lemma uint16_incr_below (n : N) : n < UINT16_MAX -> uint16_incr n = n + 1.
Proof.
  unfold uint16_incr, UINT16_MAX. intros H.
  apply N.mod_small. change (2 ^ 16) with 65536. lia.
Qed.

Lemma uint16_incr_mod (n : N) :
  uint16_incr (n mod 2 ^ 16) = (n + 1) mod 2 ^ 16.
Proof.
  unfold uint16_incr. change (2 ^ 16) with 65536.
  rewrite N.Div0.add_mod_idemp_l. reflexivity.
Qed.

Section Properties.

Context {D : Dice}.

Lemma run_app (a b : list event) (st : node) :
  run (a ++ b) st = run b (run a st).
Proof. unfold run. apply fold_left_app. Qed.

Lemma run_cons (ev : event) (evs : list event) (st : node) :
  run (ev :: evs) st = run evs (dispatch ev st).
Proof. reflexivity. Qed.

Lemma run_snoc (a : list event) (ev : event) (st : node) :
  run (a ++ [ev]) st = dispatch ev (run a st).
Proof. now rewrite run_app. Qed.

(** *** What firing scheduler tasks can change *)

Lemma exit_service_mode_task_frame (st : node) :
  app_frame (exit_service_mode_task st) = app_frame st.
Proof. reflexivity. Qed.

Lemma invoke_task_frame (id : nat) (st : node) :
  app_frame (invoke_task id st) = app_frame st.
Proof.
  unfold invoke_task.
  destruct (nth_error (sched_tasks (sched st)) id) as [t|]; [|reflexivity].
  destruct (task_active t); [|reflexivity].
  destruct (task_handler t); reflexivity.
Qed.

Lemma invoke_all_frame (ids : list nat) (st : node) :
  app_frame (fold_left (fun st id => invoke_task id st) ids st) = app_frame st.
Proof.
  revert st. induction ids as [|id ids IH]; intros st; simpl; [reflexivity|].
  rewrite IH. apply invoke_task_frame.
Qed.

Lemma run_due_frame (now : tick) (st : node) :
  app_frame (twr_scheduler_run_due now st) = app_frame st.
Proof. apply invoke_all_frame. Qed.

(** The handlers of the application never touch the scheduler or the
    sensor settings. *)
Lemma handlers_keep_config (ev : event) (st : node) :
  (forall now, ev <> Ev_run_due now) ->
  config (dispatch ev st) = config st.
Proof.
  intros Hne. destruct ev as [e now|e r|e r now now'|e r|now]; simpl.
  - destruct e; simpl; try reflexivity.
    destruct (button_hold_event st); reflexivity.
  - destruct e; try reflexivity. destruct r; reflexivity.
  - destruct e; try reflexivity. destruct r as [v|]; [|reflexivity].
    unfold tmp112_event_handler.
    destruct (tmp112_publish v now st); reflexivity.
  - destruct e; try reflexivity. destruct r as [r|]; [|reflexivity].
    unfold lis2dh12_event_handler. cbn zeta.
    match goal with |- context [negb ?b] => destruct b end; reflexivity.
  - now elim (Hne now).
Qed.

(** *** The publish gate of the thermometer *)

Lemma last_emitted_emit (tr : list effect) (e : effect) :
  last_emitted (tr ++ [e]) =
  match e with
  | Uart_write (Msg_Temperature v) => Some v
  | _ => last_emitted tr
  end.
Proof.
  unfold last_emitted. rewrite messages_app, last_of_app.
  destruct e as [| |  |m]; try reflexivity. now destruct m.
Qed.

Lemma gate_inv_frame (a b : node) :
  app_frame a = app_frame b -> gate_inv b -> gate_inv a.
Proof.
  unfold app_frame, gate_inv. intros H. injection H as _ _ _ _ Hr Hl _ _ _ Ht.
  now rewrite Hr, Hl, Ht.
Qed.

Lemma gate_inv_emit_other (e : effect) (st : node) :
  (forall v, e <> Uart_write (Msg_Temperature v)) ->
  gate_inv st -> gate_inv (emit e st).
Proof.
  unfold gate_inv, emit. simpl. intros Hne. rewrite last_emitted_emit.
  destruct e as [| | |m]; try easy.
  destruct m; try easy. now elim (Hne celsius).
Qed.

Lemma gate_inv_boot (capacity : nat) (t0 : tick) :
  gate_inv (boot capacity t0).
Proof. unfold gate_inv. simpl. split; reflexivity. Qed.

Lemma gate_inv_dispatch (ev : event) (st : node) :
  gate_inv st -> gate_inv (dispatch ev st).
Proof.
  intros H. destruct ev as [e now|e r|e r now now'|e r|now]; simpl.
  - destruct e; simpl; try assumption.
    + destruct (button_hold_event st); [|assumption].
      now apply gate_inv_emit_other.
    + unfold gate_inv in *. simpl. rewrite !last_emitted_emit. assumption.
    + unfold gate_inv in *. simpl. rewrite !last_emitted_emit. assumption.
  - destruct e; try assumption. destruct r; [|assumption].
    now apply gate_inv_emit_other.
  - destruct e; try assumption. destruct r as [v|]; [|assumption].
    unfold tmp112_event_handler.
    destruct (tmp112_publish v now st); [|assumption].
    unfold gate_inv. simpl. now rewrite last_emitted_emit.
  - destruct e; try assumption. destruct r as [r|]; [|assumption].
    unfold lis2dh12_event_handler. cbn zeta.
    match goal with |- context [negb ?b] => destruct b end; simpl.
    + assumption.
    + unfold gate_inv in *. simpl. rewrite last_emitted_emit. assumption.
  - eapply gate_inv_frame; [apply run_due_frame|assumption].
Qed.

Lemma gate_inv_run (evs : list event) (st : node) :
  gate_inv st -> gate_inv (run evs st).
Proof.
  revert st. induction evs as [|ev evs IH]; intros st H; simpl; [assumption|].
  apply IH. now apply gate_inv_dispatch.
Qed.

(** The decision of lines 122-143, with the guard of line 135 evaluated. *)
Lemma ne_NAN (x : F32.float) : F32.ne x F32.NAN = true.
Proof. now destruct x. Qed.

Lemma tmp112_publish_eq (v : F32.float) (now : tick) (st : node) :
  tmp112_publish v now st =
  (tick_temperature_report st <=? now) ||
  F32.ge (F32.fabsf (F32.sub v (last_published_temperature st)))
    TEMPERATURE_PUB_DIFFERENCE.
Proof.
  unfold tmp112_publish, ever_published. rewrite ne_NAN.
  destruct (tick_temperature_report st <=? now); simpl;
    now destruct (F32.ge _ _).
Qed.

Lemma delta_NAN (v : F32.float) :
  F32.ge (F32.fabsf (F32.sub v F32.NAN)) TEMPERATURE_PUB_DIFFERENCE = false.
Proof. now destruct v. Qed.

Lemma snoc_neq {A : Type} (l : list A) (x : A) : l ++ [x] <> l.
Proof.
  intros H. apply (f_equal (@length A)) in H.
  rewrite length_app in H. simpl in H. lia.
Qed.

Lemma tmp112_publish_spec (v : F32.float) (t : tick) (st : node) :
  gate_inv st ->
  tmp112_publish v t st = true <->
  (last_emitted (trace st) = None \/
   tick_temperature_report st <= t \/
   (exists l, last_emitted (trace st) = Some l /\
      F32.ge (F32.fabsf (F32.sub v l)) TEMPERATURE_PUB_DIFFERENCE = true)).
Proof.
  unfold gate_inv. intros Hinv. rewrite tmp112_publish_eq, orb_true_iff, N.leb_le.
  destruct (last_emitted (trace st)) as [l|].
  - rewrite Hinv. split.
    + intros [H|H]; [now right; left|]. right; right. now exists l.
    + intros [H|[H|[l' [Hl H]]]]; [discriminate|now left|].
      injection Hl as <-. now right.
  - destruct Hinv as [_ Hr]. rewrite Hr. split; [now left|].
    intros _. left. apply N.le_0_l.
Qed.

Lemma tmp112_update_publishes (v : F32.float) (t t' : tick) (st : node) :
  tmp112_publish v t st = true ->
  tmp112_event_handler TWR_TMP112_EVENT_UPDATE (Some v) t t' st =
  set_last_published_temperature v
    (set_tick_temperature_report (tick_add t' TEMPERATURE_PUB_INTERVAL)
       (twr_uart_write (Msg_Temperature v) st)).
Proof. unfold tmp112_event_handler. now intros ->. Qed.

Lemma tmp112_update_silent (v : F32.float) (t t' : tick) (st : node) :
  tmp112_publish v t st = false ->
  tmp112_event_handler TWR_TMP112_EVENT_UPDATE (Some v) t t' st = st.
Proof. unfold tmp112_event_handler. now intros ->. Qed.

Lemma tick_add_small (a b : tick) : a + b < TICK_MOD -> tick_add a b = a + b.
Proof. intros H. unfold tick_add. now apply N.mod_small. Qed.

(** C1. A temperature sample [v] arriving at tick [t] in any state the
    node can reach is written to the UART if and only if no temperature
    was written before, or [t] has reached [tick_temperature_report], or a
    temperature was written before and [v] is at least 0.2 away from the
    last one written; when it is written, the last published value becomes
    [v] and the next report tick becomes the tick [t'] read while
    publishing plus 900000 in 64-bit tick arithmetic, which is
    [t + 900000] when the handler completes within the tick [t] and the sum
    does not wrap.  In particular the first sample is always written, a
    sample 10 ticks after it that is 0.05 away is not, and a sample 0.25
    away is, at whatever tick. *)
Theorem C1_publish_gate (capacity : nat) (t0 : tick) (evs : list event)
    (v : F32.float) (t t' : tick) :
  let st := run evs (boot capacity t0) in
  let st' := tmp112_event_handler TWR_TMP112_EVENT_UPDATE (Some v) t t' st in
  let emits :=
    last_emitted (trace st) = None \/
    tick_temperature_report st <= t \/
    (exists l, last_emitted (trace st) = Some l /\
       F32.ge (F32.fabsf (F32.sub v l)) TEMPERATURE_PUB_DIFFERENCE = true) in
  (trace st' = trace st ++ [Uart_write (Msg_Temperature v)] <-> emits) /\
  (st' = st <-> ~ emits) /\
  (emits ->
   last_published_temperature st' = v /\
   last_emitted (trace st') = Some v /\
   tick_temperature_report st' = tick_add t' TEMPERATURE_PUB_INTERVAL /\
   (t' = t -> t + 900000 < TICK_MOD ->
    tick_temperature_report st' = t + 900000)) /\
  (last_emitted (trace st) = None -> t + 900000 < TICK_MOD ->
   forall t2 : tick,
   let s1 := dispatch (Ev_tmp112 TWR_TMP112_EVENT_UPDATE
                         (Some sample_21_50) t t) st in
   let s2 := dispatch (Ev_tmp112 TWR_TMP112_EVENT_UPDATE
                         (Some sample_21_55) (t + 10) (t + 10)) s1 in
   let s3 := dispatch (Ev_tmp112 TWR_TMP112_EVENT_UPDATE
                         (Some sample_21_75) t2 t2) s2 in
   trace s1 = trace st ++ [Uart_write (Msg_Temperature sample_21_50)] /\
   s2 = s1 /\
   trace s3 = trace s1 ++ [Uart_write (Msg_Temperature sample_21_75)]).
Proof.
  intros st st' emits.
  assert (Hinv : gate_inv st) by apply gate_inv_run, gate_inv_boot.
  assert (Hspec := tmp112_publish_spec v t st Hinv). fold emits in Hspec.
  assert (Hdec : forall w u, gate_inv st ->
             last_emitted (trace st) = None ->
             tmp112_publish w u st = true).
  { intros w u Hi Hn. apply tmp112_publish_spec; [assumption|now left]. }
  repeat split.
  - intros Htr. apply Hspec.
    destruct (tmp112_publish v t st) eqn:Hp; [reflexivity|].
    subst st'. rewrite (tmp112_update_silent _ _ _ _ Hp) in Htr.
    symmetry in Htr. now apply snoc_neq in Htr.
  - intros He. apply Hspec in He. subst st'.
    now rewrite (tmp112_update_publishes _ _ _ _ He).
  - intros Heq He. apply Hspec in He. subst st'.
    rewrite (tmp112_update_publishes _ _ _ _ He) in Heq.
    apply (f_equal trace) in Heq. simpl in Heq. now apply snoc_neq in Heq.
  - intros Hn. subst st'. apply tmp112_update_silent.
    destruct (tmp112_publish v t st); [|reflexivity].
    elim Hn. now apply Hspec.
  - apply Hspec in H. subst st'.
    now rewrite (tmp112_update_publishes _ _ _ _ H).
  - apply Hspec in H. subst st'.
    rewrite (tmp112_update_publishes _ _ _ _ H). simpl.
    now rewrite last_emitted_emit.
  - apply Hspec in H. subst st'.
    now rewrite (tmp112_update_publishes _ _ _ _ H).
  - intros -> Hsmall. apply Hspec in H. subst st'.
    rewrite (tmp112_update_publishes _ _ _ _ H). simpl.
    now apply tick_add_small.
  - cbn [dispatch].
    now rewrite (tmp112_update_publishes _ _ _ _ (Hdec _ _ Hinv H)).
  - cbn [dispatch].
    rewrite (tmp112_update_publishes _ _ _ _ (Hdec _ _ Hinv H)).
    apply tmp112_update_silent. rewrite tmp112_publish_eq.
    cbn [tick_temperature_report last_published_temperature
         set_last_published_temperature set_tick_temperature_report].
    change TEMPERATURE_PUB_INTERVAL with 900000.
    rewrite (tick_add_small _ _ H0).
    apply orb_false_iff. split; [apply N.leb_gt; lia|].
    vm_compute. reflexivity.
  - cbn [dispatch].
    rewrite (tmp112_update_publishes _ _ _ _ (Hdec _ _ Hinv H)).
    rewrite (tmp112_update_silent sample_21_55).
    + rewrite tmp112_update_publishes; [reflexivity|].
      rewrite tmp112_publish_eq. apply orb_true_iff. right.
      vm_compute. reflexivity.
    + rewrite tmp112_publish_eq.
      cbn [tick_temperature_report last_published_temperature
           set_last_published_temperature set_tick_temperature_report].
      change TEMPERATURE_PUB_INTERVAL with 900000.
      rewrite (tick_add_small _ _ H0).
      apply orb_false_iff. split; [apply N.leb_gt; lia|].
      vm_compute. reflexivity.
Qed.

(** C2. The guard [last_published_temperature != NAN] of line 135 is true
    in every state, also in the power-on state and right after start-up,
    before any temperature was published; the decision of the handler is
    therefore the same as if the guard were not there.  (While the static
    still holds NaN it is the difference test behind the guard that is
    false.) *)
Theorem C2_nan_guard_always_true :
  (forall x : F32.float, F32.ne x F32.NAN = true) /\
  (forall st : node, ever_published st = true) /\
  (forall (capacity : nat) (t0 : tick),
     ever_published (power_on capacity) = true /\
     ever_published (boot capacity t0) = true /\
     last_emitted (trace (boot capacity t0)) = None) /\
  (forall (v : F32.float) (now : tick) (st : node),
     tmp112_publish v now st =
     (tick_temperature_report st <=? now) ||
     F32.ge (F32.fabsf (F32.sub v (last_published_temperature st)))
       TEMPERATURE_PUB_DIFFERENCE) /\
  (forall v : F32.float,
     F32.ge (F32.fabsf (F32.sub v F32.NAN)) TEMPERATURE_PUB_DIFFERENCE =
     false).
Proof.
  split; [exact ne_NAN|]. split; [intros st; apply ne_NAN|].
  split; [|split; [exact tmp112_publish_eq|exact delta_NAN]].
  intros capacity t0. repeat split.
Qed.

(** C7. When the getter of a sensor reports failure, or an error event is
    delivered, the handler of that sensor returns the state it was given:
    nothing is written, and the last published temperature, the next
    report tick, the last face, the counters and everything else keep
    their values. *)
Theorem C7_read_failure_keeps_state (st : node) :
  (forall now now' : tick,
     tmp112_event_handler TWR_TMP112_EVENT_UPDATE None now now' st = st) /\
  (forall (r : option F32.float) (now now' : tick),
     tmp112_event_handler TWR_TMP112_EVENT_ERROR r now now' st = st) /\
  lis2dh12_event_handler TWR_LIS2DH12_EVENT_UPDATE None st = st /\
  (forall r : option twr_lis2dh12_result_g_t,
     lis2dh12_event_handler TWR_LIS2DH12_EVENT_ERROR r st = st) /\
  battery_event_handler TWR_MODULE_BATTERY_EVENT_UPDATE None st = st /\
  (forall r : option F32.float,
     battery_event_handler TWR_MODULE_BATTERY_EVENT_ERROR r st = st).
Proof. repeat split. Qed.

(** C10. Running [exit_service_mode_task], directly or through the
    scheduler, changes the thermometer and the accelerometer update
    interval and the liveness flag of the running task, and nothing else:
    the battery update interval, the counters, the button variables, the
    publish gate, the last face, the dice and the trace are unchanged. *)
Theorem C10_exit_service_mode_frame (st : node) :
  let st' := exit_service_mode_task st in
  app_frame st' = app_frame st /\
  battery_update_interval st' = battery_update_interval st /\
  trace st' = trace st /\
  tmp112_update_interval st' = TEMPERATURE_UPDATE_NORMAL_INTERVAL /\
  lis2dh12_update_interval st' = ACCELEROMETER_UPDATE_NORMAL_INTERVAL /\
  sched st' = twr_scheduler_unregister (sched_current (sched st)) (sched st) /\
  (forall now : tick,
     app_frame (dispatch (Ev_run_due now) st) = app_frame st).
Proof.
  repeat split. intros now. apply run_due_frame.
Qed.

(** *** The button counters *)

Lemma count_button_snoc (k : twr_button_event_t) (evs : list event)
    (ev : event) :
  count_button k (evs ++ [ev]) =
  count_button k evs + (if is_button_event k ev then 1 else 0).
Proof.
  unfold count_button. rewrite filter_app, length_app. simpl.
  destruct (is_button_event k ev); simpl; lia.
Qed.

Lemma dispatch_click_count (ev : event) (st : node) :
  button_click_count (dispatch ev st) =
  if is_button_event TWR_BUTTON_EVENT_CLICK ev
  then uint16_incr (button_click_count st)
  else button_click_count st.
Proof.
  destruct ev as [e now|e r|e r now now'|e r|now].
  - destruct e; simpl; try reflexivity.
    now destruct (button_hold_event st).
  - destruct e; try reflexivity. now destruct r.
  - destruct e; try reflexivity. destruct r as [v|]; [|reflexivity].
    simpl. now destruct (tmp112_publish v now st).
  - destruct e; try reflexivity. destruct r as [r|]; [|reflexivity].
    simpl. now match goal with |- context [negb ?b] => destruct b end.
  - simpl. assert (H := run_due_frame now st). unfold app_frame in H.
    now injection H.
Qed.

Lemma dispatch_hold_count (ev : event) (st : node) :
  button_hold_count (dispatch ev st) =
  if is_button_event TWR_BUTTON_EVENT_HOLD ev
  then uint16_incr (button_hold_count st)
  else button_hold_count st.
Proof.
  destruct ev as [e now|e r|e r now now'|e r|now].
  - destruct e; simpl; try reflexivity.
    now destruct (button_hold_event st).
  - destruct e; try reflexivity. now destruct r.
  - destruct e; try reflexivity. destruct r as [v|]; [|reflexivity].
    simpl. now destruct (tmp112_publish v now st).
  - destruct e; try reflexivity. destruct r as [r|]; [|reflexivity].
    simpl. now match goal with |- context [negb ?b] => destruct b end.
  - simpl. assert (H := run_due_frame now st). unfold app_frame in H.
    now injection H.
Qed.

Lemma counters_run (capacity : nat) (t0 : tick) (evs : list event) :
  button_click_count (run evs (boot capacity t0)) =
    count_button TWR_BUTTON_EVENT_CLICK evs mod 2 ^ 16 /\
  button_hold_count (run evs (boot capacity t0)) =
    count_button TWR_BUTTON_EVENT_HOLD evs mod 2 ^ 16.
Proof.
  induction evs as [|ev evs [IHc IHh]] using rev_ind; [now split|].
  rewrite run_snoc, dispatch_click_count, dispatch_hold_count.
  rewrite !count_button_snoc, IHc, IHh. split.
  - destruct (is_button_event TWR_BUTTON_EVENT_CLICK ev).
    + apply uint16_incr_mod.
    + now rewrite N.add_0_r.
  - destruct (is_button_event TWR_BUTTON_EVENT_HOLD ev).
    + apply uint16_incr_mod.
    + now rewrite N.add_0_r.
Qed.

(** C6, as the code has it.  Each CLICK (resp. HOLD) event adds one to its
    16-bit counter modulo 2^16: after any sequence of events from start-up
    the counter is the number of such events modulo 65536, and the
    increment past 65535 gives 0. *)
Theorem C6_counters_wrap (capacity : nat) (t0 : tick) (evs : list event) :
  button_click_count (run evs (boot capacity t0)) =
    count_button TWR_BUTTON_EVENT_CLICK evs mod 65536 /\
  button_hold_count (run evs (boot capacity t0)) =
    count_button TWR_BUTTON_EVENT_HOLD evs mod 65536 /\
  (forall (st : node) (now : tick),
     button_click_count
       (button_event_handler TWR_BUTTON_EVENT_CLICK now st) =
     uint16_incr (button_click_count st) /\
     button_hold_count
       (button_event_handler TWR_BUTTON_EVENT_HOLD now st) =
     uint16_incr (button_hold_count st)) /\
  uint16_incr UINT16_MAX = 0.
Proof.
  destruct (counters_run capacity t0 evs) as [Hc Hh].
  repeat split; assumption.
Qed.

(** *** The orientation filter *)

Lemma last_reported_emit (tr : list effect) (e : effect) :
  last_reported (tr ++ [e]) =
  match e with
  | Uart_write (Msg_Orientation o) => Some o
  | _ => last_reported tr
  end.
Proof.
  unfold last_reported. rewrite messages_app, last_of_app.
  destruct e as [| | |m]; try reflexivity. now destruct m.
Qed.

Lemma first_reported_emit (tr : list effect) (e : effect) :
  first_reported (tr ++ [e]) =
  match first_reported tr with
  | Some o => Some o
  | None =>
      match e with
      | Uart_write (Msg_Orientation o) => Some o
      | _ => None
      end
  end.
Proof.
  unfold first_reported. rewrite messages_app, first_of_app.
  destruct (first_of orientation_of (messages tr)); [reflexivity|].
  destruct e as [| | |m]; try reflexivity. now destruct m.
Qed.

Lemma face_inv_frame (a b : node) :
  app_frame a = app_frame b -> face_inv b -> face_inv a.
Proof.
  unfold app_frame, face_inv. intros H. injection H as _ _ _ _ _ _ Hf _ _ Ht.
  now rewrite Hf, Ht.
Qed.

Lemma face_inv_emit_other (e : effect) (st : node) :
  (forall o, e <> Uart_write (Msg_Orientation o)) ->
  face_inv st -> face_inv (emit e st).
Proof.
  unfold face_inv, emit. simpl. intros Hne.
  rewrite last_reported_emit, first_reported_emit.
  destruct e as [| | |m]; try (now destruct (first_reported (trace st))).
  destruct m; try (now destruct (first_reported (trace st))).
  now elim (Hne face).
Qed.

Lemma face_inv_boot (capacity : nat) (t0 : tick) :
  face_inv (boot capacity t0).
Proof. unfold face_inv. simpl. split; reflexivity. Qed.

Lemma lis2dh12_update_cases (r : twr_lis2dh12_result_g_t) (st : node) :
  let d := twr_dice_feed_vectors (dice st) (x_axis r) (y_axis r) (z_axis r) in
  let face := twr_dice_get_face d in
  lis2dh12_event_handler TWR_LIS2DH12_EVENT_UPDATE (Some r) st =
  if face_eqb (last_face st) face
  then set_dice d st
  else twr_uart_write (Msg_Orientation (int_of_face face))
         (set_last_face face (set_dice d st)).
Proof.
  intros d face. subst d face. unfold lis2dh12_event_handler.
  cbn [dice set_dice last_face].
  match goal with
  | |- context [face_eqb ?a ?b] => destruct (face_eqb a b)
  end; reflexivity.
Qed.

Lemma face_inv_dispatch (ev : event) (st : node) :
  face_inv st -> face_inv (dispatch ev st).
Proof.
  intros H. destruct ev as [e now|e r|e r now now'|e r|now]; simpl.
  - destruct e; simpl; try assumption.
    + destruct (button_hold_event st); [|assumption].
      now apply face_inv_emit_other.
    + unfold face_inv in *. simpl.
      rewrite !last_reported_emit, !first_reported_emit.
      now destruct (first_reported (trace st)).
    + unfold face_inv in *. simpl.
      rewrite !last_reported_emit, !first_reported_emit.
      now destruct (first_reported (trace st)).
  - destruct e; try assumption. destruct r; [|assumption].
    now apply face_inv_emit_other.
  - destruct e; try assumption. destruct r as [v|]; [|assumption].
    unfold tmp112_event_handler.
    destruct (tmp112_publish v now st); [|assumption].
    unfold face_inv in *. simpl.
    rewrite last_reported_emit, first_reported_emit.
    now destruct (first_reported (trace st)).
  - destruct e; try assumption. destruct r as [r|]; [|assumption].
    rewrite lis2dh12_update_cases. cbn zeta.
    destruct (face_eqb (last_face st) _) eqn:Hf; [assumption|].
    unfold face_inv in *. simpl.
    rewrite last_reported_emit, first_reported_emit.
    split; [reflexivity|].
    destruct H as [_ H]. destruct (first_reported (trace st)); [assumption|].
    intros Heq.
    change 0%Z with (int_of_face TWR_DICE_FACE_UNKNOWN) in Heq.
    apply int_of_face_inj in Heq.
    rewrite H, Heq in Hf. discriminate.
  - eapply face_inv_frame; [apply run_due_frame|assumption].
Qed.

Lemma face_inv_run (evs : list event) (st : node) :
  face_inv st -> face_inv (run evs st).
Proof.
  revert st. induction evs as [|ev evs IH]; intros st H; simpl; [assumption|].
  apply IH. now apply face_inv_dispatch.
Qed.

Lemma repeated_sample_silent (r : twr_lis2dh12_result_g_t) (n : nat) :
  feed_idempotent ->
  forall st : node,
    last_face st = twr_dice_get_face (dice st) ->
    twr_dice_get_face
      (twr_dice_feed_vectors (dice st) (x_axis r) (y_axis r) (z_axis r)) =
    twr_dice_get_face (dice st) ->
    trace (run (repeat (Ev_lis2dh12 TWR_LIS2DH12_EVENT_UPDATE (Some r)) n) st)
    = trace st.
Proof.
  intros Hid. induction n as [|n IH]; intros st Hl Hsame; [reflexivity|].
  cbn [repeat]. rewrite run_cons. cbn [dispatch].
  rewrite lis2dh12_update_cases. cbn zeta.
  rewrite Hl, <- Hsame, face_eqb_refl.
  rewrite IH; [reflexivity| |].
  - cbn [last_face dice set_dice]. now rewrite Hl, Hsame.
  - cbn [dice set_dice]. apply Hid.
Qed.

(** C8. For a successfully read acceleration sample arriving in any state
    the node can reach, an orientation message is written exactly when the
    face the dice returns for the sample differs from the face of the last
    orientation message (Unknown while there is none), which is the value
    [last_face] holds; when it is written [last_face] becomes the new face.
    Hence, over a dice that classifies a repeated sample the same way, the
    same sample delivered again any number of times writes nothing more. *)
Theorem C8_orientation_change_filter (capacity : nat) (t0 : tick)
    (evs : list event) (r : twr_lis2dh12_result_g_t) :
  let st := run evs (boot capacity t0) in
  let st' := lis2dh12_event_handler TWR_LIS2DH12_EVENT_UPDATE (Some r) st in
  let face :=
    twr_dice_get_face
      (twr_dice_feed_vectors (dice st) (x_axis r) (y_axis r) (z_axis r)) in
  let reported :=
    match last_reported (trace st) with
    | Some o => o
    | None => int_of_face TWR_DICE_FACE_UNKNOWN
    end in
  int_of_face (last_face st) = reported /\
  (int_of_face face <> reported ->
   trace st' = trace st ++ [Uart_write (Msg_Orientation (int_of_face face))] /\
   last_face st' = face) /\
  (int_of_face face = reported ->
   trace st' = trace st /\ last_face st' = last_face st) /\
  (feed_idempotent ->
   forall n : nat,
     trace (run (repeat (Ev_lis2dh12 TWR_LIS2DH12_EVENT_UPDATE (Some r)) n)
              st') = trace st').
Proof.
  intros st st' face reported.
  assert (Hinv : face_inv st) by apply face_inv_run, face_inv_boot.
  assert (Hrep : int_of_face (last_face st) = reported).
  { destruct Hinv as [Hinv _]. subst reported.
    destruct (last_reported (trace st)); [now symmetry|now rewrite Hinv]. }
  assert (Hcases := lis2dh12_update_cases r st). cbn zeta in Hcases.
  fold st' face in Hcases.
  split; [exact Hrep|]. split; [|split].
  - intros Hne. rewrite <- Hrep in Hne.
    destruct (face_eqb (last_face st) face) eqn:Hf.
    + apply face_eqb_eq in Hf. now rewrite Hf in Hne.
    + now rewrite Hcases.
  - intros Heq. rewrite <- Hrep in Heq. apply int_of_face_inj in Heq.
    rewrite <- Heq, face_eqb_refl in Hcases. now rewrite Hcases.
  - intros Hid n. apply repeated_sample_silent; [assumption| |].
    + rewrite Hcases.
      destruct (face_eqb (last_face st) face) eqn:Hf; [|reflexivity].
      now apply face_eqb_eq in Hf.
    + rewrite Hcases.
      destruct (face_eqb (last_face st) face); apply Hid.
Qed.

(** C9. [last_face] starts as Unknown.  As long as no orientation message
    was written it is still Unknown, so a sample for which the dice
    returns Unknown writes nothing; and the first orientation message ever
    written reports a face other than Unknown. *)
Theorem C9_first_report_not_unknown (capacity : nat) (t0 : tick)
    (evs : list event) :
  let st := run evs (boot capacity t0) in
  last_face (power_on capacity) = TWR_DICE_FACE_UNKNOWN /\
  last_face (boot capacity t0) = TWR_DICE_FACE_UNKNOWN /\
  (first_reported (trace st) = None ->
   last_face st = TWR_DICE_FACE_UNKNOWN /\
   forall r : twr_lis2dh12_result_g_t,
     twr_dice_get_face
       (twr_dice_feed_vectors (dice st) (x_axis r) (y_axis r) (z_axis r)) =
     TWR_DICE_FACE_UNKNOWN ->
     trace (lis2dh12_event_handler TWR_LIS2DH12_EVENT_UPDATE (Some r) st) =
     trace st) /\
  (forall o : Z,
     first_reported (trace st) = Some o ->
     o <> int_of_face TWR_DICE_FACE_UNKNOWN).
Proof.
  intros st.
  assert (Hinv : face_inv st) by apply face_inv_run, face_inv_boot.
  destruct Hinv as [_ Hfirst].
  split; [reflexivity|]. split; [reflexivity|]. split.
  - intros Hnone. rewrite Hnone in Hfirst. split; [assumption|].
    intros r Hr. rewrite lis2dh12_update_cases. cbn zeta.
    now rewrite Hfirst, Hr.
  - intros o Ho. now rewrite Ho in Hfirst.
Qed.

(** *** Service mode and normal mode *)

Lemma boot_in_service_mode (capacity : nat) (t0 : tick) :
  (0 < capacity)%nat ->
  in_service_mode (tick_add t0 SERVICE_MODE_INTERVAL) (boot capacity t0).
Proof.
  intros Hc. unfold in_service_mode, boot, application_init.
  cbn [sched set_sched emit set_trace twr_led_pulse set_dice
       twr_module_battery_set_update_interval twr_tmp112_set_update_interval
       twr_lis2dh12_set_update_interval power_on tmp112_update_interval
       lis2dh12_update_interval].
  unfold twr_scheduler_register. cbn [sched_tasks sched_capacity length].
  destruct (Nat.ltb_spec 0 capacity) as [_|Hle]; [|lia].
  repeat split.
Qed.

Lemma in_service_mode_config (due : tick) (a b : node) :
  config a = config b -> in_service_mode due b -> in_service_mode due a.
Proof.
  unfold config, in_service_mode. intros H. injection H as Ht Hl _ Hs.
  now rewrite Ht, Hl, Hs.
Qed.

Lemma in_normal_mode_config (due : tick) (a b : node) :
  config a = config b -> in_normal_mode due b -> in_normal_mode due a.
Proof.
  unfold config, in_normal_mode. intros H. injection H as Ht Hl _ Hs.
  now rewrite Ht, Hl, Hs.
Qed.

Lemma service_snapshot (due now : tick) (st : node) :
  in_service_mode due st ->
  due_snapshot now (sched st) = if due <=? now then [0%nat] else [].
Proof.
  intros [Hs _]. unfold due_snapshot. rewrite Hs.
  cbn [due_entries service_task task_active task_due andb].
  now destruct (due <=? now).
Qed.

Lemma normal_snapshot (due now : tick) (st : node) :
  in_normal_mode due st -> due_snapshot now (sched st) = [].
Proof. intros [Hs _]. unfold due_snapshot. now rewrite Hs. Qed.

Lemma service_fire (due : tick) (st : node) :
  in_service_mode due st -> in_normal_mode due (invoke_task 0 st).
Proof.
  intros [Hs _].
  destruct st as [cc hc ts he tr lp lf dc ti li bi [cap tasks cur] out].
  cbn in Hs. subst tasks. unfold in_normal_mode. cbn. repeat split.
Qed.

Lemma service_run_due (due now : tick) (st : node) :
  in_service_mode due st ->
  twr_scheduler_run_due now st =
  if due <=? now then invoke_task 0 st else st.
Proof.
  intros H. unfold twr_scheduler_run_due.
  rewrite (service_snapshot due now st H). now destruct (due <=? now).
Qed.

Lemma normal_run_due (due now : tick) (st : node) :
  in_normal_mode due st -> twr_scheduler_run_due now st = st.
Proof.
  intros H. unfold twr_scheduler_run_due.
  now rewrite (normal_snapshot due now st H).
Qed.

Lemma normal_dispatch (due : tick) (ev : event) (st : node) :
  in_normal_mode due st -> in_normal_mode due (dispatch ev st).
Proof.
  intros H. destruct ev as [e now|e r|e r now now'|e r|now];
    try (eapply in_normal_mode_config;
         [apply handlers_keep_config; discriminate|assumption]).
  cbn [dispatch]. now rewrite (normal_run_due due now st H).
Qed.

Lemma normal_run (due : tick) (evs : list event) (st : node) :
  in_normal_mode due st -> in_normal_mode due (run evs st).
Proof.
  revert st. induction evs as [|ev evs IH]; intros st H; [assumption|].
  rewrite run_cons. apply IH. now apply normal_dispatch.
Qed.

Lemma mode_dispatch (due : tick) (ev : event) (st : node) :
  in_service_mode due st \/ in_normal_mode due st ->
  in_service_mode due (dispatch ev st) \/ in_normal_mode due (dispatch ev st).
Proof.
  intros [H|H]; [|right; now apply normal_dispatch].
  destruct ev as [e now|e r|e r now now'|e r|now];
    try (left; eapply in_service_mode_config;
         [apply handlers_keep_config; discriminate|assumption]).
  cbn [dispatch]. rewrite (service_run_due due now st H).
  destruct (due <=? now); [right; now apply service_fire|now left].
Qed.

Lemma mode_run (due : tick) (evs : list event) (st : node) :
  in_service_mode due st \/ in_normal_mode due st ->
  in_service_mode due (run evs st) \/ in_normal_mode due (run evs st).
Proof.
  revert st. induction evs as [|ev evs IH]; intros st H; [assumption|].
  rewrite run_cons. apply IH. now apply mode_dispatch.
Qed.

(** C3. After start-up at tick [t0] (with room for one task in the
    scheduler) the thermometer and the accelerometer have the 1000-tick
    service interval and [exit_service_mode_task] is registered, due
    900000 ticks after [t0].  In every state the node reaches it is either
    still so, or the task has run: the first scheduler pass at or after
    the due tick runs it, which sets both intervals to 10000 and leaves the
    task unregistered; from then on no scheduler pass finds it due and no
    event changes the two intervals again. *)
Theorem C3_service_window (capacity : nat) (t0 : tick) (evs : list event) :
  (0 < capacity)%nat ->
  let due := tick_add t0 SERVICE_MODE_INTERVAL in
  let st0 := boot capacity t0 in
  let st := run evs st0 in
  (tmp112_update_interval st0 = 1000 /\
   lis2dh12_update_interval st0 = 1000 /\
   sched_tasks (sched st0) = [service_task due true] /\
   (t0 + 900000 < TICK_MOD -> due = t0 + 900000)) /\
  (forall s : node,
     tmp112_update_interval (exit_service_mode_task s) = 10000 /\
     lis2dh12_update_interval (exit_service_mode_task s) = 10000 /\
     sched (exit_service_mode_task s) =
     twr_scheduler_unregister (sched_current (sched s)) (sched s)) /\
  (in_service_mode due st \/ in_normal_mode due st) /\
  (in_service_mode due st ->
   forall now : tick,
     (now < due ->
      due_snapshot now (sched st) = [] /\
      dispatch (Ev_run_due now) st = st) /\
     (due <= now ->
      due_snapshot now (sched st) = [0%nat] /\
      dispatch (Ev_run_due now) st = invoke_task 0 st /\
      in_normal_mode due (dispatch (Ev_run_due now) st))) /\
  (in_normal_mode due st ->
   forall evs' : list event,
     let st' := run evs' st in
     tmp112_update_interval st' = 10000 /\
     lis2dh12_update_interval st' = 10000 /\
     sched_tasks (sched st') = [service_task due false] /\
     forall now : tick,
       due_snapshot now (sched st') = [] /\
       dispatch (Ev_run_due now) st' = st').
Proof.
  intros Hc due st0 st.
  assert (H0 : in_service_mode due st0) by now apply boot_in_service_mode.
  split; [|split; [|split; [|split]]].
  - destruct H0 as (Hs & Ht & Hl). repeat split; try assumption.
    intros Hsmall. now apply tick_add_small.
  - intros s. repeat split.
  - apply mode_run. now left.
  - intros Hsrv now. split.
    + intros Hlt. apply N.leb_gt in Hlt. cbn [dispatch].
      rewrite (service_run_due due now st Hsrv).
      rewrite (service_snapshot due now st Hsrv), Hlt. now split.
    + intros Hle. apply N.leb_le in Hle. cbn [dispatch].
      rewrite (service_run_due due now st Hsrv).
      rewrite (service_snapshot due now st Hsrv), Hle.
      split; [reflexivity|]. split; [reflexivity|]. now apply service_fire.
  - intros Hn evs' st'.
    assert (Hn' : in_normal_mode due st') by now apply normal_run.
    destruct Hn' as (Hs & Ht & Hl). repeat split; try assumption.
    + now apply (normal_snapshot due).
    + cbn [dispatch]. now apply (normal_run_due due).
Qed.

(** *** The button component *)

Section Button.

Variable hold_time : tick.

Lemma button_run_app (a b : list (button_input * tick))
    (p : button_fsm * node) :
  button_run hold_time (a ++ b) p =
  button_run hold_time b (button_run hold_time a p).
Proof. unfold button_run. apply fold_left_app. Qed.

Lemma button_run_cons (i : button_input * tick)
    (l : list (button_input * tick)) (p : button_fsm * node) :
  button_run hold_time (i :: l) p =
  button_run hold_time l (button_feed hold_time p i).
Proof. reflexivity. Qed.

Lemma feed_press (t : tick) (st : node) :
  button_feed hold_time (button_idle, st) (Edge_press, t) =
  (mkButtonFsm Pressed (Some (tick_add t hold_time)),
   button_event_handler TWR_BUTTON_EVENT_PRESS t st).
Proof. reflexivity. Qed.

Lemma feed_scan_early (due t : tick) (st : node) :
  t < due ->
  button_feed hold_time (mkButtonFsm Pressed (Some due), st) (Timer_scan, t)
  = (mkButtonFsm Pressed (Some due), st).
Proof.
  intros H. apply N.leb_gt in H. unfold button_feed, button_fsm_step.
  cbn [fst snd phase hold_timer]. now rewrite H.
Qed.


Lemma feed_release_pressed (due t : tick) (st : node) :
  button_feed hold_time (mkButtonFsm Pressed (Some due), st)
    (Edge_release, t) =
  (button_idle,
   button_event_handler TWR_BUTTON_EVENT_CLICK t
     (button_event_handler TWR_BUTTON_EVENT_RELEASE t st)).
Proof. reflexivity. Qed.


Lemma scans_before_due (due : tick) (ts : list tick) (st : node) :
  Forall (fun t => t < due) ts ->
  button_run hold_time (scans ts) (mkButtonFsm Pressed (Some due), st) =
  (mkButtonFsm Pressed (Some due), st).
Proof.
  induction 1 as [|t ts Ht _ IH]; [reflexivity|].
  cbn [scans map]. rewrite button_run_cons, feed_scan_early by assumption.
  exact IH.
Qed.


Lemma int_of_tick_small (d : tick) :
  (Z.of_N d <= INT_MAX)%Z -> int_of_tick d = Z.of_N d.
Proof.
  unfold int_of_tick, INT_MAX. intros H.
  rewrite Z.mod_small; lia.
Qed.


(** C4. A press at [t0] followed by a release at [t1], with every
    scheduler pass in between earlier than the hold deadline: the component
    pulses the LED and writes exactly one message, "Button: n" with [n]
    the click counter after its increment; the hold counter is unchanged
    and neither "Button_hold" nor "Button_hold_duration" is written.  A
    RELEASE event delivered while no hold is pending changes nothing. *)
Theorem C4_click_on_short_press (st : node) (t0 t1 : tick)
    (ts : list tick) :
  Forall (fun t => t < tick_add t0 hold_time) ts ->
  let inputs := (Edge_press, t0) :: scans ts ++ [(Edge_release, t1)] in
  let p := button_run hold_time inputs (button_idle, st) in
  fst p = button_idle /\
  trace (snd p) =
    trace st ++
    [Led_pulse 100;
     Uart_write (Msg_Button (Z.of_N (uint16_incr (button_click_count st))))] /\
  button_click_count (snd p) = uint16_incr (button_click_count st) /\
  (button_click_count st < UINT16_MAX ->
   button_click_count (snd p) = button_click_count st + 1) /\
  button_hold_count (snd p) = button_hold_count st /\
  (forall (s : node) (now : tick),
     button_hold_event s = false ->
     button_event_handler TWR_BUTTON_EVENT_RELEASE now s = s).
Proof.
  intros Hts inputs p. subst p inputs.
  rewrite button_run_cons, feed_press, button_run_app.
  rewrite (scans_before_due _ _ _ Hts).
  rewrite button_run_cons, feed_release_pressed.
  cbn [button_run fold_left fst snd].
  cbn [button_event_handler set_button_hold_event set_tick_start_button_press
       button_hold_event].
  repeat split.
  - cbn. now rewrite <- app_assoc.
  - intros Hlt. cbn. now apply uint16_incr_below.
  - intros s now Hs. cbn [button_event_handler]. now rewrite Hs.
Qed.


End Button.

End Properties.

(** * Concrete runs *)

(** [0.2f] is the binary32 value nearest to 2/10. *)
Example pub_difference_literal :
  TEMPERATURE_PUB_DIFFERENCE = F32.of_ratio 2 10.
Proof. vm_compute. reflexivity. Qed.

(** The classifier on the three samples of spec section 8. *)
Example classify_flat_up :
  classify (F32.of_ratio 1 2) (F32.of_Z 0) (F32.of_Z 0) (F32.of_Z 1) =
  TWR_DICE_FACE_1.
Proof. vm_compute. reflexivity. Qed.

Example classify_flat_down :
  classify (F32.of_ratio 1 2) (F32.of_Z 0) (F32.of_Z 0) (F32.of_Z (-1)) =
  TWR_DICE_FACE_6.
Proof. vm_compute. reflexivity. Qed.

Example classify_free_fall :
  classify (F32.of_ratio 1 2) (F32.of_Z 0) (F32.of_Z 0) (F32.of_Z 0) =
  TWR_DICE_FACE_UNKNOWN.
Proof. vm_compute. reflexivity. Qed.

Lemma half_g_dice_idempotent : @feed_idempotent half_g_dice.
Proof. intros d x y z. reflexivity. Qed.

(** C1 at the first sample after start-up: 21.50 arriving at tick 1000 is
    written and the next report is due at 901000; 21.55 ten ticks later is
    not written. *)
Lemma C1_publish_gate_witness :
  last_emitted (trace node0) = None /\
  1000 + 900000 < TICK_MOD /\
  tick_temperature_report
    (tmp112_event_handler TWR_TMP112_EVENT_UPDATE (Some sample_21_50)
       1000 1000 node0) = 901000 /\
  dispatch (Ev_tmp112 TWR_TMP112_EVENT_UPDATE (Some sample_21_55) 1010 1010)
    (dispatch (Ev_tmp112 TWR_TMP112_EVENT_UPDATE (Some sample_21_50)
                 1000 1000) node0) =
  dispatch (Ev_tmp112 TWR_TMP112_EVENT_UPDATE (Some sample_21_50) 1000 1000)
    node0.
Proof.
  assert (Hnone : last_emitted (trace node0) = None) by reflexivity.
  assert (Hsmall : 1000 + 900000 < TICK_MOD) by reflexivity.
  destruct (@C1_publish_gate half_g_dice 32 0 [] sample_21_50 1000 1000)
    as (_ & _ & Hupd & Hex).
  split; [exact Hnone|]. split; [exact Hsmall|]. split.
  - destruct (Hupd (or_introl Hnone)) as (_ & _ & _ & Hnext).
    exact (Hnext eq_refl Hsmall).
  - destruct (Hex Hnone Hsmall 0) as (_ & Hsilent & _). exact Hsilent.
Defined.

(** C3 with thirty-two slots: the scheduler pass at tick 900000 takes the
    node from service mode to normal mode. *)
Lemma C3_service_window_witness :
  (0 < 32)%nat /\
  in_normal_mode 900000 (dispatch (Ev_run_due 900000) node0).
Proof.
  assert (Hc : (0 < 32)%nat) by (repeat constructor).
  split; [exact Hc|].
  destruct (@C3_service_window half_g_dice 32 0 [] Hc)
    as (_ & _ & _ & Hfire & _).
  destruct (Hfire (boot_in_service_mode 32 0 Hc) 900000) as (_ & Hdue).
  destruct (Hdue (N.le_refl _)) as (_ & _ & Hn). exact Hn.
Defined.

(** C4 with a hold threshold of 2000 ticks: press at 5000, two scheduler
    passes, release at 5300. *)
Lemma C4_click_on_short_press_witness :
  Forall (fun t => t < tick_add 5000 2000) [5020; 5040] /\
  messages
    (trace
       (snd (button_run 2000
               [(Edge_press, 5000); (Timer_scan, 5020); (Timer_scan, 5040);
                (Edge_release, 5300)]
               (button_idle, node0)))) = [Msg_Button 1].
Proof.
  assert (Hts : Forall (fun t => t < tick_add 5000 2000) [5020; 5040])
    by (repeat constructor).
  split; [exact Hts|].
  destruct (@C4_click_on_short_press half_g_dice 2000 node0 5000 5300
              [5020; 5040] Hts) as (_ & Htr & _).
  refine (eq_trans (f_equal messages Htr) _). reflexivity.
Defined.


(** The same run, evaluated: one "Button_hold" message, then the duration
    of 2500 ticks. *)
Example hold_run_messages :
  messages
    (trace
       (snd (button_run 2000
               [(Edge_press, 5000); (Timer_scan, 5020); (Timer_scan, 7000);
                (Timer_scan, 7020); (Edge_release, 7500)]
               (button_idle, node0)))) =
  [Msg_Button_hold 1; Msg_Button_hold_duration 2500].
Proof. vm_compute. reflexivity. Qed.


(** C6, as the specification words it, fails: the click counter reaches
    65535 after 65535 clicks, and the next click makes it 0, where a
    saturating counter stays at 65535; the hold counter does the same. *)
Lemma C6_counters_do_not_saturate :
  let st := run (repeat click0 (N.to_nat 65535)) node0 in
  let st' := dispatch click0 st in
  button_click_count st = UINT16_MAX /\
  saturating_incr (button_click_count st) = UINT16_MAX /\
  button_click_count st' = 0 /\
  button_click_count st' <> saturating_incr (button_click_count st).
Proof.
  intros st st'.
  assert (Hst : button_click_count st = UINT16_MAX).
  { unfold st, node0.
    rewrite (proj1 (counters_run 32 0 (repeat click0 (N.to_nat 65535)))).
    vm_compute. reflexivity. }
  assert (Hst' : button_click_count st' = 0).
  { unfold st'. rewrite dispatch_click_count. cbn [is_button_event click0].
    rewrite Hst. reflexivity. }
  rewrite Hst', Hst. repeat split. discriminate.
Qed.

(** C8 for a node lying flat: the first sample reports face 1, three more
    identical samples report nothing. *)
Lemma C8_orientation_change_filter_witness :
  @feed_idempotent half_g_dice /\
  messages
    (trace
       (run (repeat (Ev_lis2dh12 TWR_LIS2DH12_EVENT_UPDATE (Some flat_up)) 3)
          (lis2dh12_event_handler TWR_LIS2DH12_EVENT_UPDATE (Some flat_up)
             node0))) = [Msg_Orientation 1].
Proof.
  split; [exact half_g_dice_idempotent|].
  destruct (@C8_orientation_change_filter half_g_dice 32 0 [] flat_up)
    as (_ & _ & _ & Hrep).
  refine (eq_trans (f_equal messages (Hrep half_g_dice_idempotent 3%nat)) _).
  reflexivity.
Defined.

(** C9 for a node in free fall right after start-up: the sample is
    classified Unknown and nothing is written. *)
Lemma C9_first_report_not_unknown_witness :
  first_reported (trace node0) = None /\
  twr_dice_get_face
    (twr_dice_feed_vectors (dice node0) (x_axis free_fall)
       (y_axis free_fall) (z_axis free_fall)) = TWR_DICE_FACE_UNKNOWN /\
  trace (lis2dh12_event_handler TWR_LIS2DH12_EVENT_UPDATE (Some free_fall)
           node0) = trace node0.
Proof.
  assert (Hnone : first_reported (trace node0) = None) by reflexivity.
  assert (Hunk : twr_dice_get_face
                   (twr_dice_feed_vectors (dice node0) (x_axis free_fall)
                      (y_axis free_fall) (z_axis free_fall)) =
                 TWR_DICE_FACE_UNKNOWN) by reflexivity.
  split; [exact Hnone|]. split; [exact Hunk|].
  destruct (@C9_first_report_not_unknown half_g_dice 32 0 [])
    as (_ & _ & Hfirst & _).
  destruct (Hfirst Hnone) as (_ & Hsilent). exact (Hsilent free_fall Hunk).
Defined.

(** * Further properties of the handlers *)

Section Coverage.

Context {D : Dice}.

(** ** What each event appends to the trace *)

Lemma dispatch_trace (ev : event) (st : node) :
  trace (dispatch ev st) = trace st ++ output ev st.
Proof.
  destruct ev as [e now|e r|e r now now'|e r|now].
  - destruct e; cbn [dispatch output].
    + cbn. now rewrite app_nil_r.
    + cbn [button_event_handler]. destruct (button_hold_event st).
      * reflexivity.
      * now rewrite app_nil_r.
    + cbn. now rewrite <- app_assoc.
    + cbn. now rewrite <- app_assoc.
  - destruct e; try (cbn; now rewrite app_nil_r).
    destruct r; cbn; [reflexivity|now rewrite app_nil_r].
  - destruct e; try (cbn; now rewrite app_nil_r).
    destruct r as [v|]; [|cbn; now rewrite app_nil_r].
    cbn [dispatch output tmp112_event_handler].
    destruct (tmp112_publish v now st); [reflexivity|now rewrite app_nil_r].
  - destruct e; try (cbn; now rewrite app_nil_r).
    destruct r as [r|]; [|cbn; now rewrite app_nil_r].
    cbn [dispatch output]. rewrite lis2dh12_update_cases. cbn zeta.
    destruct (face_eqb (last_face st) _); cbn;
      [now rewrite app_nil_r|reflexivity].
  - cbn [dispatch output]. rewrite app_nil_r.
    assert (H := run_due_frame now st). unfold app_frame in H.
    now injection H.
Qed.

Lemma pick_all_app {A : Type} (pick : message -> option A)
    (a b : list message) :
  pick_all pick (a ++ b) = pick_all pick a ++ pick_all pick b.
Proof.
  induction a as [|m a IH]; [reflexivity|]. cbn.
  destruct (pick m); cbn; now rewrite IH.
Qed.

Lemma output_at_most_one (ev : event) (st : node) :
  (length (messages (output ev st)) <= 1)%nat.
Proof.
  destruct ev as [e now|e r|e r now now'|e r|now]; cbn [output].
  - destruct e; cbn; try lia. destruct (button_hold_event st); cbn; lia.
  - destruct e; cbn; try lia. destruct r; cbn; lia.
  - destruct e; cbn; try lia. destruct r as [v|]; cbn; try lia.
    destruct (tmp112_publish v now st); cbn; lia.
  - destruct e; cbn; try lia. destruct r as [r|]; cbn; try lia.
    destruct (face_eqb (last_face st) _); cbn; lia.
  - cbn. lia.
Qed.

(** X1. The output only grows, and a run of [n] callbacks writes at most
    [n] messages to the UART: every callback leaves what was written
    before in place and adds at most one message. *)
Theorem X1_one_message_per_event (evs : list event) (st : node) :
  (exists out : list effect,
     trace (run evs st) = trace st ++ out /\
     (length (messages out) <= length evs)%nat) /\
  (forall ev : event,
     exists out : list effect,
       trace (dispatch ev st) = trace st ++ out /\
       (length (messages out) <= 1)%nat).
Proof.
  split.
  - revert st. induction evs as [|ev evs IH]; intros st.
    + exists []. rewrite app_nil_r. split; [reflexivity|cbn; lia].
    + rewrite run_cons. destruct (IH (dispatch ev st)) as (out & Htr & Hlen).
      exists (output ev st ++ out). rewrite Htr, dispatch_trace, app_assoc.
      split; [reflexivity|].
      rewrite messages_app, length_app.
      assert (H := output_at_most_one ev st). cbn [length]. lia.
  - intros ev. exists (output ev st). split.
    + apply dispatch_trace.
    + apply output_at_most_one.
Qed.

(** ** Button messages are numbered *)

Lemma numbered_succ (k : nat) :
  numbered (S k) = numbered k ++ [Z.of_N (N.of_nat (S k) mod 2 ^ 16)].
Proof. unfold numbered. now rewrite seq_S, map_app. Qed.

Lemma output_buttons (ev : event) (st : node) :
  pick_all button_of (messages (output ev st)) =
  if is_button_event TWR_BUTTON_EVENT_CLICK ev
  then [Z.of_N (uint16_incr (button_click_count st))]
  else [].
Proof.
  destruct ev as [e now|e r|e r now now'|e r|now]; cbn [output].
  - destruct e; cbn; try reflexivity. now destruct (button_hold_event st).
  - destruct e; cbn; try reflexivity. now destruct r.
  - destruct e; cbn; try reflexivity. destruct r as [v|]; cbn; try reflexivity.
    now destruct (tmp112_publish v now st).
  - destruct e; cbn; try reflexivity. destruct r as [r|]; cbn; try reflexivity.
    now destruct (face_eqb (last_face st) _).
  - reflexivity.
Qed.

Lemma output_button_holds (ev : event) (st : node) :
  pick_all button_hold_of (messages (output ev st)) =
  if is_button_event TWR_BUTTON_EVENT_HOLD ev
  then [Z.of_N (uint16_incr (button_hold_count st))]
  else [].
Proof.
  destruct ev as [e now|e r|e r now now'|e r|now]; cbn [output].
  - destruct e; cbn; try reflexivity. now destruct (button_hold_event st).
  - destruct e; cbn; try reflexivity. now destruct r.
  - destruct e; cbn; try reflexivity. destruct r as [v|]; cbn; try reflexivity.
    now destruct (tmp112_publish v now st).
  - destruct e; cbn; try reflexivity. destruct r as [r|]; cbn; try reflexivity.
    now destruct (face_eqb (last_face st) _).
  - reflexivity.
Qed.

Lemma filter_snoc_length {A : Type} (f : A -> bool) (l : list A) (x : A) :
  length (filter f (l ++ [x])) =
  if f x then S (length (filter f l)) else length (filter f l).
Proof.
  rewrite filter_app, length_app. cbn. destruct (f x); cbn; lia.
Qed.

Lemma button_messages_numbered (capacity : nat) (t0 : tick)
    (evs : list event) :
  let tr := trace (run evs (boot capacity t0)) in
  pick_all button_of (messages tr) =
    numbered (length (filter (is_button_event TWR_BUTTON_EVENT_CLICK) evs)) /\
  pick_all button_hold_of (messages tr) =
    numbered (length (filter (is_button_event TWR_BUTTON_EVENT_HOLD) evs)).
Proof.
  cbv zeta.
  induction evs as [|ev evs [IHc IHh]] using rev_ind; [now split|].
  destruct (counters_run capacity t0 evs) as [Hc Hh].
  unfold count_button in Hc, Hh.
  rewrite run_snoc, dispatch_trace, messages_app, !pick_all_app.
  rewrite IHc, IHh, output_buttons, output_button_holds.
  rewrite !filter_snoc_length, Hc, Hh, !uint16_incr_mod. split.
  - destruct (is_button_event TWR_BUTTON_EVENT_CLICK ev).
    + rewrite numbered_succ. repeat f_equal. lia.
    + now rewrite app_nil_r.
  - destruct (is_button_event TWR_BUTTON_EVENT_HOLD ev).
    + rewrite numbered_succ. repeat f_equal. lia.
    + now rewrite app_nil_r.
Qed.

(** X2. The "Button" messages written since start-up carry the numbers
    1, 2, 3, ... in this order, each modulo 65536, one per CLICK event;
    the "Button_hold" messages likewise, one per HOLD event.  A receiver
    sees a gap exactly when a message was lost. *)
Theorem X2_button_messages_numbered (capacity : nat) (t0 : tick)
    (evs : list event) :
  let tr := trace (run evs (boot capacity t0)) in
  pick_all button_of (messages tr) =
    numbered (length (filter (is_button_event TWR_BUTTON_EVENT_CLICK) evs)) /\
  pick_all button_hold_of (messages tr) =
    numbered (length (filter (is_button_event TWR_BUTTON_EVENT_HOLD) evs)).
Proof. exact (button_messages_numbered capacity t0 evs). Qed.

(** ** Battery readings are passed through *)

Lemma output_battery (ev : event) (st : node) :
  pick_all battery_of (messages (output ev st)) = battery_reading ev.
Proof.
  destruct ev as [e now|e r|e r now now'|e r|now]; cbn [output].
  - destruct e; cbn; try reflexivity. now destruct (button_hold_event st).
  - destruct e; cbn; try reflexivity. now destruct r.
  - destruct e; cbn; try reflexivity. destruct r as [v|]; cbn; try reflexivity.
    now destruct (tmp112_publish v now st).
  - destruct e; cbn; try reflexivity. destruct r as [r|]; cbn; try reflexivity.
    now destruct (face_eqb (last_face st) _).
  - reflexivity.
Qed.

(** X3. The battery handler does not filter: the "Battery" messages a run
    adds to the trace are exactly the voltages of the UPDATE events whose
    read succeeded, in the order of the events, whatever else happens in
    between. *)
Theorem X3_battery_readings_passed_through (evs : list event) (st : node) :
  pick_all battery_of (messages (trace (run evs st))) =
  pick_all battery_of (messages (trace st)) ++ battery_readings evs.
Proof.
  revert st. induction evs as [|ev evs IH]; intros st.
  - cbn. now rewrite app_nil_r.
  - rewrite run_cons, IH, dispatch_trace, messages_app, pick_all_app.
    rewrite output_battery, <- app_assoc. reflexivity.
Qed.

(** ** Orientation messages never repeat *)

Lemma last_of_pick_all {A : Type} (pick : message -> option A)
    (l : list message) :
  last_of pick l = hd_error (rev (pick_all pick l)).
Proof.
  induction l as [|m l IH]; [reflexivity|]. cbn. rewrite IH.
  destruct (pick m) as [a|]; cbn;
    destruct (rev (pick_all pick l)); reflexivity.
Qed.

Lemma no_repeat_snoc (l : list Z) (x : Z) :
  no_repeat (l ++ [x]) =
  no_repeat l &&
  match hd_error (rev l) with
  | Some y => negb (y =? x)%Z
  | None => true
  end.
Proof.
  induction l as [|a l IH]; [reflexivity|].
  destruct l as [|b l].
  - cbn. now rewrite andb_true_r.
  - change (no_repeat ((a :: b :: l) ++ [x]))
      with (negb (a =? b)%Z && no_repeat ((b :: l) ++ [x])).
    rewrite IH.
    change (no_repeat (a :: b :: l))
      with (negb (a =? b)%Z && no_repeat (b :: l)).
    rewrite andb_assoc. f_equal.
    change (rev (a :: b :: l)) with (rev (b :: l) ++ [a]).
    destruct (rev (b :: l)) eqn:Hr; [|reflexivity].
    apply (f_equal (@length Z)) in Hr. rewrite length_rev in Hr.
    discriminate.
Qed.

Lemma output_orientations (ev : event) (st : node) :
  pick_all orientation_of (messages (output ev st)) =
  match ev with
  | Ev_lis2dh12 TWR_LIS2DH12_EVENT_UPDATE (Some r) =>
      let face :=
        twr_dice_get_face
          (twr_dice_feed_vectors (dice st) (x_axis r) (y_axis r)
             (z_axis r)) in
      if face_eqb (last_face st) face then [] else [int_of_face face]
  | _ => []
  end.
Proof.
  destruct ev as [e now|e r|e r now now'|e r|now]; cbn [output].
  - destruct e; cbn; try reflexivity. now destruct (button_hold_event st).
  - destruct e; cbn; try reflexivity. now destruct r.
  - destruct e; cbn; try reflexivity. destruct r as [v|]; cbn; try reflexivity.
    now destruct (tmp112_publish v now st).
  - destruct e; cbn; try reflexivity. destruct r as [r|]; cbn; try reflexivity.
    now destruct (face_eqb (last_face st) _).
  - reflexivity.
Qed.

Lemma int_of_face_range (f : twr_dice_face_t) :
  (0 <= int_of_face f <= 6)%Z.
Proof. destruct f; cbn; lia. Qed.

Lemma orientation_messages_alternate (capacity : nat) (t0 : tick)
    (evs : list event) :
  let os :=
    pick_all orientation_of (messages (trace (run evs (boot capacity t0)))) in
  no_repeat os = true /\ Forall (fun o => (0 <= o <= 6)%Z) os.
Proof.
  cbv zeta.
  induction evs as [|ev evs [IHn IHr]] using rev_ind;
    [split; [reflexivity|constructor]|].
  assert (Hinv : face_inv (run evs (boot capacity t0)))
    by apply face_inv_run, face_inv_boot.
  destruct Hinv as [Hlast _]. unfold last_reported in Hlast.
  rewrite last_of_pick_all in Hlast.
  rewrite run_snoc, dispatch_trace, messages_app, pick_all_app.
  rewrite output_orientations.
  set (st := run evs (boot capacity t0)) in *.
  set (os := pick_all orientation_of (messages (trace st))) in *.
  destruct ev as [e now|e r|e r now now'|e r|now];
    try (rewrite app_nil_r; now split).
  destruct e; try (rewrite app_nil_r; now split).
  destruct r as [r|]; [|rewrite app_nil_r; now split].
  cbv zeta.
  destruct (face_eqb (last_face st) _) eqn:Hf; [rewrite app_nil_r; now split|].
  split.
  - rewrite no_repeat_snoc, IHn. cbn [andb].
    destruct (hd_error (rev os)) as [o|]; [|reflexivity].
    rewrite Hlast. apply negb_true_iff, Z.eqb_neq. intros Heq.
    apply int_of_face_inj in Heq. rewrite Heq, face_eqb_refl in Hf.
    discriminate.
  - apply Forall_app. split; [assumption|].
    constructor; [apply int_of_face_range|constructor].
Qed.

(** X4. Among the "Orientation" messages written since start-up no two
    consecutive ones report the same face, and every one of them carries a
    number from 0 to 6. *)
Theorem X4_orientation_messages_alternate (capacity : nat) (t0 : tick)
    (evs : list event) :
  let os :=
    pick_all orientation_of (messages (trace (run evs (boot capacity t0)))) in
  no_repeat os = true /\ Forall (fun o => (0 <= o <= 6)%Z) os.
Proof. exact (orientation_messages_alternate capacity t0 evs). Qed.

(** ** The hold flag and the press tick *)

Lemma hold_flag_kept (ev : event) (st : node) :
  sets_hold_flag ev = false ->
  button_hold_event (dispatch ev st) = button_hold_event st /\
  tick_start_button_press (dispatch ev st) = tick_start_button_press st.
Proof.
  intros Hev. destruct ev as [e now|e r|e r now now'|e r|now].
  - destruct e; try discriminate; cbn.
    + destruct (button_hold_event st) eqn:Hf; cbn; rewrite ?Hf; now split.
    + now split.
  - destruct e; cbn; try (now split). destruct r; cbn; now split.
  - destruct e; cbn; try (now split). destruct r as [v|]; [|now split].
    destruct (tmp112_publish v now st); cbn; now split.
  - destruct e; try (now split). destruct r as [r|]; [|now split].
    cbn [dispatch]. rewrite lis2dh12_update_cases. cbn zeta.
    now destruct (face_eqb (last_face st) _).
  - cbn [dispatch]. assert (H := run_due_frame now st). unfold app_frame in H.
    injection H as _ _ Ht Hf _ _ _ _ _ _. now split.
Qed.

Lemma hold_flag_kept_run (evs : list event) (st : node) :
  forallb (fun ev => negb (sets_hold_flag ev)) evs = true ->
  button_hold_event (run evs st) = button_hold_event st /\
  tick_start_button_press (run evs st) = tick_start_button_press st.
Proof.
  revert st. induction evs as [|ev evs IH]; intros st Hall; [now split|].
  cbn [forallb] in Hall. apply andb_true_iff in Hall as [Hev Hall].
  apply negb_true_iff in Hev. rewrite run_cons.
  destruct (IH (dispatch ev st) Hall) as [Hf Ht].
  destruct (hold_flag_kept ev st Hev) as [Hf' Ht'].
  split; congruence.
Qed.

(** X5. Only PRESS and HOLD events write the hold flag, and only PRESS
    writes the press tick.  So after a HOLD, whatever other events follow
    (further RELEASE events included), a RELEASE writes a
    "Button_hold_duration" message measured from the press tick that was
    recorded before the HOLD; after a PRESS, whatever other events follow,
    a RELEASE changes nothing. *)
Theorem X5_hold_flag_outlives_release (st : node) (rest : list event)
    (th tp now : tick) :
  forallb (fun ev => negb (sets_hold_flag ev)) rest = true ->
  let held := run (Ev_button TWR_BUTTON_EVENT_HOLD th :: rest) st in
  let pressed := run (Ev_button TWR_BUTTON_EVENT_PRESS tp :: rest) st in
  (button_hold_event held = true /\
   tick_start_button_press held = tick_start_button_press st /\
   trace (dispatch (Ev_button TWR_BUTTON_EVENT_RELEASE now) held) =
   trace held ++
   [Uart_write
      (Msg_Button_hold_duration
         (int_of_tick (tick_sub now (tick_start_button_press st))))]) /\
  (button_hold_event pressed = false /\
   tick_start_button_press pressed = tp /\
   dispatch (Ev_button TWR_BUTTON_EVENT_RELEASE now) pressed = pressed).
Proof.
  intros Hrest held pressed. subst held pressed. rewrite !run_cons.
  destruct (hold_flag_kept_run rest
              (dispatch (Ev_button TWR_BUTTON_EVENT_HOLD th) st) Hrest)
    as [Hf Ht].
  destruct (hold_flag_kept_run rest
              (dispatch (Ev_button TWR_BUTTON_EVENT_PRESS tp) st) Hrest)
    as [Hf' Ht'].
  change (button_hold_event
            (dispatch (Ev_button TWR_BUTTON_EVENT_HOLD th) st))
    with true in Hf.
  change (tick_start_button_press
            (dispatch (Ev_button TWR_BUTTON_EVENT_HOLD th) st))
    with (tick_start_button_press st) in Ht.
  change (button_hold_event
            (dispatch (Ev_button TWR_BUTTON_EVENT_PRESS tp) st))
    with false in Hf'.
  change (tick_start_button_press
            (dispatch (Ev_button TWR_BUTTON_EVENT_PRESS tp) st))
    with tp in Ht'.
  split; split; try assumption; split; try assumption.
  - rewrite dispatch_trace. cbn [output]. now rewrite Hf, Ht.
  - set (s := run rest (dispatch (Ev_button TWR_BUTTON_EVENT_PRESS tp) st))
      in *.
    cbn [dispatch button_event_handler]. now rewrite Hf'.
Qed.

Lemma tick_sub_add (t0 d : tick) :
  t0 < TICK_MOD -> d < TICK_MOD -> tick_sub (tick_add t0 d) t0 = d.
Proof.
  unfold tick_sub, tick_add, TICK_MOD. intros H0 Hd.
  rewrite N2Z.inj_mod, N2Z.inj_add.
  change (Z.of_N (2 ^ 64)) with (2 ^ 64)%Z.
  rewrite Zminus_mod_idemp_l.
  replace (Z.of_N t0 + Z.of_N d - Z.of_N t0)%Z with (Z.of_N d) by lia.
  rewrite Z.mod_small; lia.
Qed.

(** X6. The duration is computed modulo 2^64, so it is right also when the
    tick counter wraps between the press and the release: with a hold
    pending since tick [t0], a RELEASE arriving [d] ticks later (in wrapping
    tick arithmetic) writes the duration [d], as long as [d] fits an
    [int]. *)
Theorem X6_duration_across_tick_wrap (st : node) (t0 d : tick) :
  button_hold_event st = true ->
  tick_start_button_press st = t0 ->
  t0 < TICK_MOD ->
  (Z.of_N d <= INT_MAX)%Z ->
  trace (button_event_handler TWR_BUTTON_EVENT_RELEASE (tick_add t0 d) st) =
  trace st ++ [Uart_write (Msg_Button_hold_duration (Z.of_N d))].
Proof.
  intros Hf Ht H0 Hd. cbn [button_event_handler]. rewrite Hf, Ht.
  rewrite tick_sub_add; [|assumption|unfold INT_MAX, TICK_MOD in *; lia].
  now rewrite (int_of_tick_small _ Hd).
Qed.

(** ** The components do not touch each other's variables *)

(** X7. Every callback leaves the variables of the other components as
    they are: a button event keeps the publish gate, the last face and the
    dice; a battery event keeps everything but the trace; a thermometer
    event keeps the button variables, the last face and the dice; an
    accelerometer event keeps the button variables and the publish gate; a
    scheduler pass keeps all of them; and only a scheduler pass can change
    the sensor settings or the scheduler. *)
Theorem X7_components_isolated (ev : event) (st : node) :
  let st' := dispatch ev st in
  match ev with
  | Ev_button _ _ =>
      gate_vars st' = gate_vars st /\ face_vars st' = face_vars st /\
      config st' = config st
  | Ev_battery _ _ =>
      button_vars st' = button_vars st /\ gate_vars st' = gate_vars st /\
      face_vars st' = face_vars st /\ config st' = config st
  | Ev_tmp112 _ _ _ _ =>
      button_vars st' = button_vars st /\ face_vars st' = face_vars st /\
      config st' = config st
  | Ev_lis2dh12 _ _ =>
      button_vars st' = button_vars st /\ gate_vars st' = gate_vars st /\
      config st' = config st
  | Ev_run_due _ =>
      button_vars st' = button_vars st /\ gate_vars st' = gate_vars st /\
      face_vars st' = face_vars st /\
      battery_update_interval st' = battery_update_interval st /\
      trace st' = trace st
  end.
Proof.
  cbv zeta. destruct ev as [e now|e r|e r now now'|e r|now].
  - split; [|split; [|apply handlers_keep_config; discriminate]];
      destruct e; cbn; try reflexivity;
      destruct (button_hold_event st); reflexivity.
  - split; [|split; [|split; [|apply handlers_keep_config; discriminate]]];
      destruct e; cbn; try reflexivity; destruct r; reflexivity.
  - split; [|split; [|apply handlers_keep_config; discriminate]];
      destruct e; cbn; try reflexivity;
      (destruct r as [v|]; [|reflexivity]);
      destruct (tmp112_publish v now st); reflexivity.
  - split; [|split; [|apply handlers_keep_config; discriminate]];
      destruct e; try reflexivity;
      (destruct r as [r|]; [|reflexivity]);
      cbn [dispatch]; rewrite lis2dh12_update_cases; cbn zeta;
      destruct (face_eqb (last_face st) _); reflexivity.
  - cbn [dispatch]. assert (H := run_due_frame now st).
    unfold app_frame in H. unfold button_vars, gate_vars, face_vars.
    injection H as -> -> -> -> -> -> -> -> -> ->. repeat split.
Qed.

(** ** The quiet period of the publish gate *)

Lemma quiet_sample_silent (st : node) (s : F32.float * tick) :
  quiet st s = true -> dispatch (sample_event s) st = st.
Proof.
  unfold quiet, sample_event. intros H. cbn [dispatch].
  apply tmp112_update_silent. rewrite tmp112_publish_eq.
  apply andb_true_iff in H as [Ht Hd].
  apply negb_true_iff in Ht. apply negb_true_iff in Hd.
  now rewrite Ht, Hd.
Qed.

(** X8. While the report tick is not reached and the temperature stays
    less than 0.2 away from the last published value, nothing happens: a
    run of any number of such samples returns the state it started from,
    so nothing is written and the comparison stays against the value that
    was published, not against the previous sample. *)
Theorem X8_quiet_period (st : node) (samples : list (F32.float * tick)) :
  forallb (quiet st) samples = true ->
  run (map sample_event samples) st = st.
Proof.
  induction samples as [|s samples IH]; intros Hall; [reflexivity|].
  cbn [forallb] in Hall. apply andb_true_iff in Hall as [Hs Hall].
  cbn [map]. rewrite run_cons, (quiet_sample_silent st s Hs). now apply IH.
Qed.

(** ** Settings in every reachable state *)

Lemma no_task_run_due (now : tick) (st : node) :
  sched_tasks (sched st) = [] -> twr_scheduler_run_due now st = st.
Proof.
  intros H. unfold twr_scheduler_run_due, due_snapshot. now rewrite H.
Qed.

Lemma boot_without_slot (t0 : tick) :
  sched_tasks (sched (boot 0 t0)) = [] /\
  tmp112_update_interval (boot 0 t0) = TEMPERATURE_UPDATE_SERVICE_INTERVAL /\
  lis2dh12_update_interval (boot 0 t0) =
  ACCELEROMETER_UPDATE_SERVICE_INTERVAL.
Proof. repeat split. Qed.

Lemma stuck_in_service_dispatch (ev : event) (st : node) :
  sched_tasks (sched st) = [] ->
  config (dispatch ev st) = config st.
Proof.
  intros H. destruct ev as [e now|e r|e r now now'|e r|now];
    try (apply handlers_keep_config; discriminate).
  cbn [dispatch]. now rewrite no_task_run_due.
Qed.

Lemma stuck_in_service_run (evs : list event) (st : node) :
  sched_tasks (sched st) = [] -> config (run evs st) = config st.
Proof.
  revert st. induction evs as [|ev evs IH]; intros st H; [reflexivity|].
  rewrite run_cons.
  assert (Hc := stuck_in_service_dispatch ev st H).
  rewrite IH; [assumption|].
  unfold config in Hc. injection Hc as _ _ _ Hs. now rewrite Hs.
Qed.

Lemma battery_interval_dispatch (ev : event) (st : node) :
  battery_update_interval (dispatch ev st) = battery_update_interval st.
Proof.
  destruct ev as [e now|e r|e r now now'|e r|now];
    try (match goal with
         | |- battery_update_interval (dispatch ?ev st) = _ =>
             assert (H : config (dispatch ev st) = config st)
               by (apply handlers_keep_config; discriminate);
             unfold config in H; injection H as _ _ Hb _; exact Hb
         end).
  cbn [dispatch]. assert (H := run_due_frame now st). unfold app_frame in H.
  injection H as _ _ _ _ _ _ _ _ Hb _. exact Hb.
Qed.

(** X9. In every state the node reaches, the battery update interval is
    the 3600000 ticks set at start-up, and the thermometer and the
    accelerometer have the same update interval, 1000 or 10000 ticks.  If
    the scheduler had no free slot at start-up (the result of the
    registration is not looked at), the task that ends the service mode
    does not exist and both sensors keep the 1000-tick interval for
    ever. *)
Theorem X9_settings_invariant (capacity : nat) (t0 : tick)
    (evs : list event) :
  let st := run evs (boot capacity t0) in
  battery_update_interval st = 3600000 /\
  tmp112_update_interval st = lis2dh12_update_interval st /\
  (tmp112_update_interval st = 1000 \/ tmp112_update_interval st = 10000) /\
  (capacity = 0%nat ->
   tmp112_update_interval st = 1000 /\ sched_tasks (sched st) = []).
Proof.
  cbv zeta. split; [|].
  - induction evs as [|ev evs IH] using rev_ind; [reflexivity|].
    now rewrite run_snoc, battery_interval_dispatch.
  - destruct capacity as [|c].
    + assert (Hc := stuck_in_service_run evs (boot 0 t0)
                      (proj1 (boot_without_slot t0))).
      unfold config in Hc. injection Hc as Ht Hl _ Hs.
      rewrite Ht, Hl, Hs. repeat split. now left.
    + assert (Hm : in_service_mode (tick_add t0 SERVICE_MODE_INTERVAL)
                     (run evs (boot (S c) t0)) \/
                   in_normal_mode (tick_add t0 SERVICE_MODE_INTERVAL)
                     (run evs (boot (S c) t0))).
      { apply mode_run. left. apply boot_in_service_mode. lia. }
      destruct Hm as [(_ & Ht & Hl)|(_ & Ht & Hl)]; rewrite Ht, Hl;
        (split; [reflexivity|split; [|discriminate]]);
        [now left|now right].
Qed.

(** ** The staleness bound of the publish gate *)

Lemma report_tick_kept (ev : event) (st : node) :
  (forall v now now',
     ev <> Ev_tmp112 TWR_TMP112_EVENT_UPDATE (Some v) now now') ->
  tick_temperature_report (dispatch ev st) = tick_temperature_report st.
Proof.
  intros Hne. destruct ev as [e now|e r|e r now now'|e r|now].
  - destruct e; cbn; try reflexivity. now destruct (button_hold_event st).
  - destruct e; cbn; try reflexivity. now destruct r.
  - destruct e; try reflexivity. destruct r as [v|]; [|reflexivity].
    now elim (Hne v now now').
  - destruct e; try reflexivity. destruct r as [r|]; [|reflexivity].
    cbn [dispatch]. rewrite lis2dh12_update_cases. cbn zeta.
    now destruct (face_eqb (last_face st) _).
  - cbn [dispatch]. assert (H := run_due_frame now st). unfold app_frame in H.
    injection H as _ _ _ _ Hr _ _ _ _ _. exact Hr.
Qed.

Lemma report_tick_bound (evs : list event) :
  forall (st : node) (last : tick),
    tick_temperature_report st <= last + TEMPERATURE_PUB_INTERVAL ->
    samples_ordered last evs = true ->
    tick_temperature_report (run evs st) <=
    last_sample_tick last evs + TEMPERATURE_PUB_INTERVAL.
Proof.
  induction evs as [|ev evs IH]; intros st last Hb Ho; [assumption|].
  rewrite run_cons.
  assert (Hother :
            (forall v now now',
               ev <> Ev_tmp112 TWR_TMP112_EVENT_UPDATE (Some v) now now') ->
            samples_ordered last (ev :: evs) = samples_ordered last evs ->
            last_sample_tick last (ev :: evs) = last_sample_tick last evs ->
            tick_temperature_report (run evs (dispatch ev st)) <=
            last_sample_tick last (ev :: evs) + TEMPERATURE_PUB_INTERVAL).
  { intros Hne Hso Hlt. rewrite Hlt. apply IH.
    - now rewrite report_tick_kept.
    - now rewrite <- Hso. }
  destruct ev as [e now|e r|e r now now'|e r|now];
    try (apply Hother; [discriminate|reflexivity|reflexivity]).
  destruct e; [apply Hother; [discriminate|reflexivity|reflexivity]|].
  destruct r as [v|];
    [|apply Hother; [discriminate|reflexivity|reflexivity]].
  cbn [samples_ordered last_sample_tick] in *.
  apply andb_true_iff in Ho as [Ho Hrest].
  apply andb_true_iff in Ho as [Ho Hwrap].
  apply andb_true_iff in Ho as [Hlast Hnow].
  apply N.leb_le in Hlast. apply N.leb_le in Hnow. apply N.ltb_lt in Hwrap.
  apply IH; [|assumption]. cbn [dispatch].
  destruct (tmp112_publish v now st) eqn:Hp.
  - rewrite (tmp112_update_publishes _ _ _ _ Hp).
    cbn [tick_temperature_report set_last_published_temperature
         set_tick_temperature_report].
    rewrite (tick_add_small _ _ Hwrap). apply N.le_refl.
  - rewrite (tmp112_update_silent _ _ _ _ Hp). lia.
Qed.

(** X10. The bound on staleness.  When the successful temperature samples
    of a run arrive in tick order (and far from the wrap of the tick
    counter), the next report tick is at most 900000 ticks after the last
    of them; so a sample that arrives 900000 ticks or more after the
    previous successful sample is published whatever its value. *)
Theorem X10_staleness_bound (capacity : nat) (t0 : tick) (evs : list event)
    (v : F32.float) (t t' : tick) :
  samples_ordered 0 evs = true ->
  let st := run evs (boot capacity t0) in
  let last := last_sample_tick 0 evs in
  tick_temperature_report st <= last + 900000 /\
  (last + 900000 <= t ->
   trace (tmp112_event_handler TWR_TMP112_EVENT_UPDATE (Some v) t t' st) =
   trace st ++ [Uart_write (Msg_Temperature v)]).
Proof.
  intros Ho st last.
  assert (Hb : tick_temperature_report st <= last + 900000).
  { apply (report_tick_bound evs (boot capacity t0) 0); [|assumption].
    cbn. lia. }
  split; [assumption|]. intros Ht.
  rewrite tmp112_update_publishes; [reflexivity|].
  rewrite tmp112_publish_eq. apply orb_true_iff. left.
  apply N.leb_le. lia.
Qed.

(** ** The text of the integer messages and the 32-byte buffer *)

Lemma string_length_append (s1 s2 : String.string) :
  String.length (String.append s1 s2) =
  (String.length s1 + String.length s2)%nat.
Proof. induction s1 as [|c s1 IH]; cbn; [reflexivity|now rewrite IH]. Qed.

Lemma pow10_succ (d : nat) : 10 ^ N.of_nat (S d) = 10 * 10 ^ N.of_nat d.
Proof. rewrite Nat2N.inj_succ, N.pow_succ_r'. reflexivity. Qed.

Lemma decimal_length_le (fuel : nat) :
  forall (d : nat) (n : N),
    (1 <= d <= fuel)%nat -> n < 10 ^ N.of_nat d ->
    (String.length (Text.decimal fuel n) <= d)%nat.
Proof.
  induction fuel as [|f IH]; intros d n Hd Hn; [lia|].
  cbn [Text.decimal]. destruct (N.ltb_spec n 10) as [Hlt|Hge]; [cbn; lia|].
  rewrite string_length_append. cbn [String.length].
  destruct d as [|[|d]]; [lia| |].
  - change (10 ^ N.of_nat 1) with 10 in Hn. lia.
  - assert (Hq : n / 10 < 10 ^ N.of_nat (S d)).
    { apply N.Div0.div_lt_upper_bound. now rewrite <- pow10_succ. }
    assert (H := IH (S d) (n / 10) ltac:(lia) Hq). lia.
Qed.

Lemma decimal_length_ge (fuel : nat) :
  forall (d : nat) (n : N),
    (d <= fuel)%nat -> 10 ^ N.of_nat d <= 10 * n ->
    (d <= String.length (Text.decimal fuel n))%nat.
Proof.
  induction fuel as [|f IH]; intros d n Hd Hn; [lia|].
  cbn [Text.decimal]. destruct (N.ltb_spec n 10) as [Hlt|Hge].
  - cbn [String.length]. destruct d as [|[|d]]; [lia|lia|].
    rewrite !pow10_succ in Hn.
    assert (0 < 10 ^ N.of_nat d) by (apply N.neq_0_lt_0, N.pow_nonzero; lia).
    nia.
  - rewrite string_length_append. cbn [String.length].
    destruct d as [|d]; [lia|].
    assert (Hq : 10 ^ N.of_nat d <= 10 * (n / 10)).
    { rewrite pow10_succ in Hn.
      assert (Hm := N.Div0.div_mod n 10).
      assert (Hr : n mod 10 < 10) by (apply N.mod_lt; lia).
      destruct d as [|d]; [change (10 ^ N.of_nat 0) with 1; lia|].
      rewrite pow10_succ in *. lia. }
    assert (H := IH d (n / 10) ltac:(lia) Hq). lia.
Qed.

(** The number of characters [%d] prints for a non-negative [int]. *)
Lemma print_d_length_iff (z : Z) (d : nat) :
  (0 <= z <= INT_MAX)%Z -> (1 <= d <= 9)%nat ->
  (String.length (Text.print_d z) <= d)%nat <->
  (z < 10 ^ Z.of_nat d)%Z.
Proof.
  intros Hz Hd. unfold Text.print_d.
  destruct (Z.ltb_spec z 0) as [Hneg|_]; [lia|].
  assert (Hpow : Z.of_N (10 ^ N.of_nat d) = (10 ^ Z.of_nat d)%Z).
  { rewrite N2Z.inj_pow, nat_N_Z. reflexivity. }
  split.
  - intros Hlen.
    destruct (Z.lt_ge_cases z (10 ^ Z.of_nat d)) as [Hlt|Hge]; [assumption|].
    assert (H := decimal_length_ge 10 (S d) (Z.to_N z) ltac:(lia)).
    rewrite pow10_succ in H.
    assert (10 ^ N.of_nat d <= Z.to_N z) by lia.
    lia.
  - intros Hlt. apply decimal_length_le; [lia|]. lia.
Qed.

Lemma In_pick_all {A : Type} (pick : message -> option A) (m : message)
    (a : A) (l : list message) :
  pick m = Some a -> In m l -> In a (pick_all pick l).
Proof.
  intros Hp. induction l as [|m' l IH]; [easy|]. intros [->|Hin]; cbn.
  - rewrite Hp. now left.
  - destruct (pick m'); [right|]; now apply IH.
Qed.

Lemma numbered_range (k : nat) (n : Z) :
  In n (numbered k) -> (0 <= n < 65536)%Z.
Proof.
  unfold numbered. intros H. apply in_map_iff in H as (i & <- & _).
  assert (N.of_nat i mod 2 ^ 16 < 2 ^ 16) by (apply N.mod_lt; discriminate).
  change (2 ^ 16) with 65536 in *.
  generalize dependent (N.of_nat i mod 65536). intros x Hx. lia.
Qed.

(** X11. In every state the node reaches, each "Button", "Button_hold"
    and "Orientation" message that was written has a text that [sprintf]
    fits into the 32-byte buffer together with its terminating NUL (at
    most 19 bytes in fact): the counters stay below 65536 and the face
    number below 7. *)
Theorem X11_counter_messages_fit_buffer (capacity : nat) (t0 : tick)
    (evs : list event) (m : message) (s : String.string) :
  In m (messages (trace (run evs (boot capacity t0)))) ->
  (forall d : Z, m <> Msg_Button_hold_duration d) ->
  Text.text_of m = Some s ->
  (Text.bytes_written s <= 19)%nat /\
  (Text.bytes_written s <= Text.BUFFER_SIZE)%nat.
Proof.
  intros Hin Hnd Htext.
  assert (H19 : (Text.bytes_written s <= 19)%nat);
    [|split; [assumption|unfold Text.BUFFER_SIZE; lia]].
  destruct (button_messages_numbered capacity t0 evs) as [Hb Hh].
  destruct (orientation_messages_alternate capacity t0 evs) as [_ Ho].
  cbv zeta in Hb, Hh, Ho. unfold Text.bytes_written.
  destruct m as [n|n|d|v|v|o]; cbn [Text.text_of] in Htext;
    try discriminate; try (now elim (Hnd d));
    injection Htext as <-; cbn [String.append String.length];
    rewrite ?string_length_append.
  - assert (Hn : (0 <= n < 65536)%Z).
    { eapply numbered_range. rewrite <- Hb.
      now apply (In_pick_all button_of (Msg_Button n)). }
    assert (Hl : (String.length (Text.print_d n) <= 5)%nat)
      by (apply print_d_length_iff; unfold INT_MAX; lia).
    cbn [String.length]. lia.
  - assert (Hn : (0 <= n < 65536)%Z).
    { eapply numbered_range. rewrite <- Hh.
      now apply (In_pick_all button_hold_of (Msg_Button_hold n)). }
    assert (Hl : (String.length (Text.print_d n) <= 5)%nat)
      by (apply print_d_length_iff; unfold INT_MAX; lia).
    cbn [String.length]. lia.
  - assert (Hn : (0 <= o <= 6)%Z).
    { rewrite Forall_forall in Ho. apply Ho.
      now apply (In_pick_all orientation_of (Msg_Orientation o)). }
    assert (Hl : (String.length (Text.print_d o) <= 1)%nat)
      by (apply print_d_length_iff; unfold INT_MAX; lia).
    cbn [String.length Text.CRLF]. lia.
Qed.

(** X12. The "Button_hold_duration" text does not always fit: with a hold
    pending since tick [t0], the RELEASE that arrives [e] ticks later
    (with [e] within an [int]) writes a message whose text, with its
    terminating NUL, fits the 32-byte buffer exactly when [e] is below
    10000000 ticks; from there on [sprintf] needs 33 bytes or more. *)
Theorem X12_duration_text_and_buffer (st : node) (t0 e : tick) :
  button_hold_event st = true ->
  tick_start_button_press st = t0 ->
  t0 < TICK_MOD ->
  (Z.of_N e <= INT_MAX)%Z ->
  exists s : String.string,
    trace (button_event_handler TWR_BUTTON_EVENT_RELEASE (tick_add t0 e) st)
    = trace st ++ [Uart_write (Msg_Button_hold_duration (Z.of_N e))] /\
    Text.text_of (Msg_Button_hold_duration (Z.of_N e)) = Some s /\
    ((Text.bytes_written s <= Text.BUFFER_SIZE)%nat <-> e < 10000000).
Proof.
  intros Hf Ht H0 He. eexists. split; [|split; [reflexivity|]].
  - cbn [button_event_handler]. rewrite Hf, Ht.
    rewrite tick_sub_add; [|assumption|unfold INT_MAX, TICK_MOD in *; lia].
    now rewrite (int_of_tick_small _ He).
  - unfold Text.bytes_written, Text.BUFFER_SIZE.
    cbn [String.append String.length]. rewrite ?string_length_append.
    cbn [String.length Text.CRLF].
    assert (H := print_d_length_iff (Z.of_N e) 7 ltac:(lia) ltac:(lia)).
    change (10 ^ Z.of_nat 7)%Z with 10000000%Z in H. lia.
Qed.

End Coverage.

(** * Properties of the DAC driver *)

Section DacProperties.

Import DAC.

Context {F : CR_fields}.

Local Open Scope Z_scope.

(** ** Bits of 32-bit values *)

Lemma testbit_shl32 (x n i : Z) :
  0 <= i -> Z.testbit (shl32 x n) i = (i <? 32) && Z.testbit x (i - n).
Proof.
  intros Hi. unfold shl32, UINT32_MOD.
  rewrite Z.testbit_mod_pow2 by lia. now rewrite Z.shiftl_spec.
Qed.

Lemma testbit_not32 (x i : Z) :
  0 <= i -> Z.testbit (not32 x) i = (i <? 32) && negb (Z.testbit x i).
Proof.
  intros Hi. unfold not32, UINT32_MOD.
  rewrite Z.testbit_mod_pow2 by lia. now rewrite Z.lnot_spec.
Qed.

Lemma land_zero_bits (a b j : Z) :
  Z.land a b = 0 -> Z.testbit a j = true -> Z.testbit b j = false.
Proof.
  intros H Ha. apply (f_equal (fun x => Z.testbit x j)) in H.
  rewrite Z.land_spec, Z.bits_0, Ha in H. exact H.
Qed.

Lemma valid_config_bits (c : DAC_ChannelConfTypeDef) (j : Z) :
  valid_config c ->
  Z.testbit (Z.lor (DAC_Trigger c) (DAC_OutputBuffer c)) j = true ->
  Z.testbit (Z.lor (Z.lor DAC_CR_TSEL1 DAC_CR_TEN1) DAC_CR_BOFF1) j = true.
Proof.
  intros (_ & _ & H) Hc. destruct (Z.neg_nonneg_cases j) as [Hj|Hj].
  - rewrite Z.testbit_neg_r in Hc by assumption. discriminate.
  - assert (Hn := land_zero_bits _ _ j H Hc).
    rewrite Z.lnot_spec in Hn by assumption.
    now apply negb_false_iff in Hn.
Qed.

Lemma channel_fields_bits (j : Z) :
  Z.testbit channel_fields j =
  Z.testbit DAC_CR_MAMP1 j || Z.testbit DAC_CR_WAVE1 j ||
  Z.testbit DAC_CR_TSEL1 j || Z.testbit DAC_CR_TEN1 j ||
  Z.testbit DAC_CR_BOFF1 j.
Proof. unfold channel_fields. now rewrite !Z.lor_spec. Qed.

(** Bit [i] of [CR] after a successful [HAL_DAC_ConfigChannel]. *)
Lemma config_channel_bit (h : DAC_HandleTypeDef)
    (c : DAC_ChannelConfTypeDef) (ch i : Z) :
  Lock h = HAL_UNLOCKED -> 0 <= i ->
  Z.testbit (Instance_CR (snd (HAL_DAC_ConfigChannel h c ch))) i =
  (i <? 32) && negb (Z.testbit DAC_CR_WAVE1 (i - ch)) &&
  (Z.testbit (Z.lor (DAC_Trigger c) (DAC_OutputBuffer c)) (i - ch) ||
   Z.testbit (Instance_CR h) i && negb (Z.testbit channel_fields (i - ch))).
Proof.
  intros Hl Hi. unfold HAL_DAC_ConfigChannel. rewrite Hl.
  cbn [snd Instance_CR set_Instance_CR set_State set_Lock HAL_UNLOCK].
  unfold CLEAR_BIT.
  rewrite !Z.land_spec, Z.lor_spec, Z.land_spec, !testbit_not32,
    !testbit_shl32 by assumption.
  destruct (i <? 32); cbn [andb negb]; [|now rewrite !andb_false_r].
  destruct (Z.testbit DAC_CR_WAVE1 (i - ch)); cbn [andb negb];
    [now rewrite andb_false_r|].
  rewrite andb_true_r. apply orb_comm.
Qed.

Lemma config_channel_handle (h : DAC_HandleTypeDef)
    (c : DAC_ChannelConfTypeDef) (ch : Z) :
  Lock h = HAL_UNLOCKED ->
  fst (HAL_DAC_ConfigChannel h c ch) = HAL_OK /\
  State (snd (HAL_DAC_ConfigChannel h c ch)) = HAL_DAC_STATE_READY /\
  Lock (snd (HAL_DAC_ConfigChannel h c ch)) = HAL_UNLOCKED /\
  ErrorCode (snd (HAL_DAC_ConfigChannel h c ch)) = ErrorCode h.
Proof. intros Hl. unfold HAL_DAC_ConfigChannel. rewrite Hl. repeat split. Qed.

Lemma handle_eq (a b : DAC_HandleTypeDef) :
  Instance_CR a = Instance_CR b -> State a = State b -> Lock a = Lock b ->
  ErrorCode a = ErrorCode b -> a = b.
Proof. destruct a, b; cbn; intros; subst; reflexivity. Qed.

(** ** The lock *)

Lemma call_keeps_unlocked (c : dac_call) (h : DAC_HandleTypeDef) :
  Lock h = HAL_UNLOCKED ->
  fst (call c h) = HAL_OK /\ Lock (snd (call c h)) = HAL_UNLOCKED /\
  State (snd (call c h)) =
  match c with
  | Call_DeInit => HAL_DAC_STATE_RESET
  | _ => HAL_DAC_STATE_READY
  end.
Proof.
  intros Hl. destruct c as [| |ch|c ch]; cbn [call].
  - cbn. destruct (State h); cbn; repeat split; assumption.
  - repeat split.
  - cbn. repeat split. assumption.
  - destruct (config_channel_handle h c ch Hl) as (Hs & Hst & Hlk & _).
    repeat split; assumption.
Qed.

Lemma calls_cons (c : dac_call) (cs : list dac_call)
    (h : DAC_HandleTypeDef) :
  calls (c :: cs) h =
  (fst (call c h) :: fst (calls cs (snd (call c h))),
   snd (calls cs (snd (call c h)))).
Proof.
  cbn [calls]. destruct (call c h) as [s h']. cbn [fst snd].
  now destruct (calls cs h').
Qed.

(** X13. Used from one thread, the driver never leaves the handle locked:
    starting from an unlocked handle, every call of any sequence of
    [HAL_DAC_Init], [HAL_DAC_DeInit], [HAL_DAC_Stop] and
    [HAL_DAC_ConfigChannel] returns [HAL_OK] (never [HAL_BUSY]) and the
    handle is unlocked again after each of them; the state is then RESET
    after a [HAL_DAC_DeInit] and READY after any other call. *)
Theorem X13_dac_calls_keep_unlocked (cs : list dac_call)
    (h : DAC_HandleTypeDef) :
  Lock h = HAL_UNLOCKED ->
  Forall (fun s => s = HAL_OK) (fst (calls cs h)) /\
  Lock (snd (calls cs h)) = HAL_UNLOCKED /\
  (forall (c : dac_call) (pre : list dac_call),
     cs = pre ++ [c] ->
     State (snd (calls cs h)) =
     match c with
     | Call_DeInit => HAL_DAC_STATE_RESET
     | _ => HAL_DAC_STATE_READY
     end).
Proof.
  revert h. induction cs as [|c cs IH]; intros h Hl.
  - repeat split; [constructor|assumption|].
    intros c pre H. now destruct pre.
  - destruct (call_keeps_unlocked c h Hl) as (Hs & Hlk & Hst).
    destruct (IH (snd (call c h)) Hlk) as (Hall & Hlk' & Hst').
    rewrite calls_cons. cbn [fst snd]. repeat split.
    + constructor; assumption.
    + assumption.
    + intros c' pre Heq. destruct pre as [|p pre]; cbn in Heq.
      * injection Heq as -> ->. exact Hst.
      * injection Heq as _ ->. now apply (Hst' c' pre).
Qed.

(** X14. A handle that is locked: [HAL_DAC_ConfigChannel] returns
    [HAL_BUSY] and changes nothing, neither the handle nor [CR].
    [HAL_DAC_Init] does not release the lock unless the state is RESET, so
    the configuration keeps failing after it; [HAL_DAC_DeInit] followed by
    [HAL_DAC_Init] does release it, without writing [CR]. *)
Theorem X14_dac_locked_handle (h : DAC_HandleTypeDef)
    (c : DAC_ChannelConfTypeDef) (ch : Z) :
  Lock h = HAL_LOCKED ->
  HAL_DAC_ConfigChannel h c ch = (HAL_BUSY, h) /\
  (State h <> HAL_DAC_STATE_RESET ->
   fst (calls [Call_Init; Call_ConfigChannel c ch] h) = [HAL_OK; HAL_BUSY]) /\
  (let h' := snd (calls [Call_DeInit; Call_Init] h) in
   Lock h' = HAL_UNLOCKED /\ State h' = HAL_DAC_STATE_READY /\
   Instance_CR h' = Instance_CR h /\
   fst (HAL_DAC_ConfigChannel h' c ch) = HAL_OK).
Proof.
  intros Hl. split; [|split].
  - unfold HAL_DAC_ConfigChannel. now rewrite Hl.
  - intros Hst. cbn. destruct (State h); try (now elim Hst);
      cbn; unfold HAL_DAC_ConfigChannel; cbn; now rewrite Hl.
  - cbn. repeat split.
Qed.

(** ** The control register *)

Ltac split_bits :=
  repeat match goal with
         | |- context [Z.testbit ?a ?j] => destruct (Z.testbit a j) eqn:?
         | |- context [(?i <? 32)] => destruct (i <? 32) eqn:?
         end;
  cbn [andb orb negb]; try reflexivity; try discriminate; try congruence.

Lemma trigger_bits (j : Z) :
  Z.testbit (Z.lor (Z.lor DAC_CR_TSEL1 DAC_CR_TEN1) DAC_CR_BOFF1) j =
  Z.testbit DAC_CR_TSEL1 j || Z.testbit DAC_CR_TEN1 j ||
  Z.testbit DAC_CR_BOFF1 j.
Proof. now rewrite !Z.lor_spec. Qed.

Lemma fields_apart_bits (j : Z) :
  fields_apart ->
  Z.testbit (Z.lor (Z.lor DAC_CR_TSEL1 DAC_CR_TEN1) DAC_CR_BOFF1) j = true ->
  Z.testbit DAC_CR_WAVE1 j = false /\ Z.testbit DAC_CR_MAMP1 j = false.
Proof.
  unfold fields_apart. intros H Ht. rewrite Z.land_comm in H.
  assert (Hn := land_zero_bits _ _ j H Ht). rewrite Z.lor_spec in Hn.
  now apply orb_false_iff in Hn.
Qed.

(** X15. What a successful [HAL_DAC_ConfigChannel] leaves in [CR], for a
    valid configuration and a register layout whose fields do not
    overlap: the wave and amplitude fields of the channel are zero, its
    trigger and buffer fields hold exactly the configuration, and every
    other bit of the register, the enable bit of the channel and the bits
    of the other channel included, is as before. *)
Theorem X15_config_channel_fields (h : DAC_HandleTypeDef)
    (c : DAC_ChannelConfTypeDef) (ch : Z) :
  Lock h = HAL_UNLOCKED -> 0 <= ch < 32 ->
  valid_config c -> fields_apart -> enable_apart ->
  let cr := Instance_CR h in
  let cr' := Instance_CR (snd (HAL_DAC_ConfigChannel h c ch)) in
  Z.land cr' (shl32 (Z.lor DAC_CR_WAVE1 DAC_CR_MAMP1) ch) = 0 /\
  Z.land cr'
    (shl32 (Z.lor (Z.lor DAC_CR_TSEL1 DAC_CR_TEN1) DAC_CR_BOFF1) ch) =
  shl32 (Z.lor (DAC_Trigger c) (DAC_OutputBuffer c)) ch /\
  Z.land cr' (not32 (shl32 channel_fields ch)) =
  Z.land cr (not32 (shl32 channel_fields ch)) /\
  Z.land cr' (shl32 DAC_CR_EN1 ch) = Z.land cr (shl32 DAC_CR_EN1 ch).
Proof.
  intros Hl Hch Hv Hf He cr cr'. subst cr cr'.
  assert (Hcfg := fun j => valid_config_bits c j Hv).
  assert (Hfa := fun j => fields_apart_bits j Hf).
  assert (Hen := fun j => land_zero_bits _ _ j He).
  repeat split; apply Z.bits_inj'; intros i Hi;
    rewrite ?Z.land_spec, ?Z.bits_0, ?testbit_not32, ?testbit_shl32,
      ?config_channel_bit by assumption;
    specialize (Hcfg (i - ch)); specialize (Hfa (i - ch));
    specialize (Hen (i - ch));
    rewrite ?channel_fields_bits, ?trigger_bits, ?Z.lor_spec in *;
    split_bits;
    repeat match goal with
           | H : ?x = true -> _ |- _ =>
               specialize (H eq_refl); try destruct H
           end;
    cbn [andb orb negb] in *; congruence.
Qed.

(** X16. Configuring a channel twice with the same configuration is the
    same as configuring it once: the second call changes neither [CR] nor
    the handle. *)
Theorem X16_config_channel_idempotent (h : DAC_HandleTypeDef)
    (c : DAC_ChannelConfTypeDef) (ch : Z) :
  Lock h = HAL_UNLOCKED -> 0 <= ch < 32 ->
  let h' := snd (HAL_DAC_ConfigChannel h c ch) in
  HAL_DAC_ConfigChannel h' c ch = (HAL_OK, h').
Proof.
  intros Hl Hch h'.
  destruct (config_channel_handle h c ch Hl) as (_ & Hst & Hlk & Her).
  fold h' in Hst, Hlk, Her.
  destruct (config_channel_handle h' c ch Hlk) as (Hs' & Hst' & Hlk' & Her').
  rewrite (surjective_pairing (HAL_DAC_ConfigChannel h' c ch)), Hs'.
  f_equal. apply handle_eq; try congruence.
  apply Z.bits_inj'; intros i Hi. subst h'.
  rewrite !config_channel_bit by assumption.
  rewrite ?channel_fields_bits, ?Z.lor_spec. split_bits.
Qed.

Lemma stop_bit (h : DAC_HandleTypeDef) (ch i : Z) :
  0 <= i ->
  Z.testbit (Instance_CR (snd (HAL_DAC_Stop h ch))) i =
  Z.testbit (Instance_CR h) i && (i <? 32) &&
  negb (Z.testbit DAC_CR_EN1 (i - ch)).
Proof.
  intros Hi. cbn [HAL_DAC_Stop snd Instance_CR set_Instance_CR set_State].
  unfold CLEAR_BIT.
  rewrite Z.land_spec, testbit_not32, testbit_shl32 by assumption.
  split_bits.
Qed.

(** X17. [HAL_DAC_Stop] clears the enable bit of the channel and nothing
    else in a 32-bit [CR]; on an unlocked handle, with a valid configuration
    and the layout above it commutes with [HAL_DAC_ConfigChannel]:
    stopping a channel does not disturb its configuration and configuring
    it does not enable it. *)
Theorem X17_stop_and_config_commute (h : DAC_HandleTypeDef)
    (c : DAC_ChannelConfTypeDef) (ch : Z) :
  Lock h = HAL_UNLOCKED -> 0 <= ch < 32 ->
  0 <= Instance_CR h < UINT32_MOD ->
  valid_config c -> enable_apart ->
  let stopped := snd (HAL_DAC_Stop h ch) in
  Z.land (Instance_CR stopped) (shl32 DAC_CR_EN1 ch) = 0 /\
  Z.lor (Instance_CR stopped)
    (Z.land (Instance_CR h) (shl32 DAC_CR_EN1 ch)) = Instance_CR h /\
  snd (HAL_DAC_Stop (snd (HAL_DAC_ConfigChannel h c ch)) ch) =
  snd (HAL_DAC_ConfigChannel stopped c ch).
Proof.
  intros Hl Hch Hcr Hv He stopped. subst stopped.
  assert (Hcfg := fun j => valid_config_bits c j Hv).
  assert (Hen := fun j => land_zero_bits _ _ j He).
  assert (Hhigh : forall i, 0 <= i -> (i <? 32) = false ->
                  Z.testbit (Instance_CR h) i = false).
  { intros i Hi H32. apply Z.ltb_ge in H32.
    rewrite <- (Z.mod_small (Instance_CR h) (2 ^ 32)) by exact Hcr.
    apply Z.mod_pow2_bits_high. lia. }
  split; [|split].
  - apply Z.bits_inj'; intros i Hi.
    rewrite Z.land_spec, Z.bits_0, stop_bit, testbit_shl32 by assumption.
    split_bits.
  - apply Z.bits_inj'; intros i Hi.
    rewrite Z.lor_spec, Z.land_spec, stop_bit, testbit_shl32 by assumption.
    specialize (Hhigh i Hi). split_bits; specialize (Hhigh eq_refl);
      discriminate.
  - assert (Hl' : Lock (snd (HAL_DAC_Stop h ch)) = HAL_UNLOCKED)
      by exact Hl.
    destruct (config_channel_handle h c ch Hl) as (_ & Hst1 & Hlk1 & Her1).
    destruct (config_channel_handle (snd (HAL_DAC_Stop h ch)) c ch Hl')
      as (_ & Hst2 & Hlk2 & Her2).
    apply handle_eq.
    + apply Z.bits_inj'; intros i Hi.
      rewrite stop_bit, !config_channel_bit, stop_bit by assumption.
      specialize (Hcfg (i - ch)). specialize (Hen (i - ch)).
      rewrite ?channel_fields_bits, ?trigger_bits, ?Z.lor_spec in *.
      split_bits;
        repeat match goal with
               | H : ?x = true -> _ |- _ => specialize (H eq_refl)
               end;
        cbn [andb orb negb] in *; congruence.
    + now rewrite Hst2.
    + rewrite Hlk2. exact Hlk1.
    + rewrite Her2. exact Her1.
Qed.

End DacProperties.

(** * Further concrete runs *)

(** X5 on the node after start-up: HOLD at tick 5, then a RELEASE and a
    CLICK; the flag is still set. *)
Lemma X5_hold_flag_outlives_release_witness :
  forallb (fun ev => negb (sets_hold_flag ev))
    [Ev_button TWR_BUTTON_EVENT_RELEASE 10; click0] = true /\
  button_hold_event
    (run (Ev_button TWR_BUTTON_EVENT_HOLD 5 ::
          [Ev_button TWR_BUTTON_EVENT_RELEASE 10; click0]) node0) = true.
Proof.
  assert (H : forallb (fun ev => negb (sets_hold_flag ev))
                [Ev_button TWR_BUTTON_EVENT_RELEASE 10; click0] = true)
    by reflexivity.
  split; [exact H|].
  exact (proj1 (proj1 (@X5_hold_flag_outlives_release half_g_dice node0
                         [Ev_button TWR_BUTTON_EVENT_RELEASE 10; click0]
                         5 7 20 H))).
Defined.

(** X6 for a press 100 ticks before the wrap and a release 3000 ticks
    after the press. *)
Lemma X6_duration_across_tick_wrap_witness :
  button_hold_event held_near_wrap = true /\
  tick_start_button_press held_near_wrap = near_wrap /\
  near_wrap < TICK_MOD /\
  (Z.of_N 3000 <= INT_MAX)%Z /\
  tick_add near_wrap 3000 = 2900 /\
  trace (button_event_handler TWR_BUTTON_EVENT_RELEASE
           (tick_add near_wrap 3000) held_near_wrap) =
  trace held_near_wrap ++
  [Uart_write (Msg_Button_hold_duration (Z.of_N 3000))].
Proof.
  assert (Hf : button_hold_event held_near_wrap = true) by reflexivity.
  assert (Ht : tick_start_button_press held_near_wrap = near_wrap)
    by reflexivity.
  assert (H0 : near_wrap < TICK_MOD) by reflexivity.
  assert (Hd : (Z.of_N 3000 <= INT_MAX)%Z) by discriminate.
  repeat (split; [assumption|]). split; [reflexivity|].
  exact (@X6_duration_across_tick_wrap half_g_dice held_near_wrap near_wrap
           3000 Hf Ht H0 Hd).
Defined.

(** X8 after the report of 21.50 at tick 1000: two samples of 21.55. *)
Lemma X8_quiet_period_witness :
  forallb (quiet reported_21_50) [(sample_21_55, 1010); (sample_21_55, 2000)]
  = true /\
  run (map sample_event [(sample_21_55, 1010); (sample_21_55, 2000)])
    reported_21_50 = reported_21_50.
Proof.
  assert (H : forallb (quiet reported_21_50)
                [(sample_21_55, 1010); (sample_21_55, 2000)] = true)
    by (vm_compute; reflexivity).
  split; [exact H|].
  exact (@X8_quiet_period half_g_dice reported_21_50
           [(sample_21_55, 1010); (sample_21_55, 2000)] H).
Defined.

(** X9 without a free scheduler slot: the pass at tick 900000 finds no
    task. *)
Lemma X9_settings_invariant_witness :
  0%nat = 0%nat /\
  tmp112_update_interval
    (run [Ev_run_due 900000] (@boot half_g_dice 0 0)) = 1000.
Proof.
  split; [reflexivity|].
  exact (proj1 (proj2 (proj2 (proj2
           (@X9_settings_invariant half_g_dice 0 0 [Ev_run_due 900000])))
           eq_refl)).
Defined.

(** X10 after samples at ticks 1000 and 2000: the next report is due by
    tick 902001. *)
Lemma X10_staleness_bound_witness :
  samples_ordered 0 two_samples = true /\
  tick_temperature_report (run two_samples (@boot half_g_dice 32 0)) <=
  last_sample_tick 0 two_samples + 900000.
Proof.
  assert (H : samples_ordered 0 two_samples = true) by reflexivity.
  split; [exact H|].
  exact (proj1 (@X10_staleness_bound half_g_dice 32 0 two_samples
                  sample_21_50 0 0 H)).
Defined.

(** X11 for the message of the first click. *)
Lemma X11_counter_messages_fit_buffer_witness :
  In (Msg_Button 1) (messages (trace (run [click0] (@boot half_g_dice 32 0))))
  /\
  Text.text_of (Msg_Button 1) = Some Text.button_1_text /\
  (Text.bytes_written Text.button_1_text <= 19)%nat.
Proof.
  assert (Hin : In (Msg_Button 1)
                  (messages (trace (run [click0] (@boot half_g_dice 32 0)))))
    by (vm_compute; left; reflexivity).
  assert (Ht : Text.text_of (Msg_Button 1) = Some Text.button_1_text)
    by (vm_compute; reflexivity).
  split; [exact Hin|]. split; [exact Ht|].
  refine (proj1 (@X11_counter_messages_fit_buffer half_g_dice 32 0 [click0]
                   (Msg_Button 1) Text.button_1_text Hin _ Ht)).
  intros d. discriminate.
Defined.

(** X12 for a hold of 9999999 ticks, the longest whose text fits. *)
Lemma X12_duration_text_and_buffer_witness :
  button_hold_event held_near_wrap = true /\
  tick_start_button_press held_near_wrap = near_wrap /\
  near_wrap < TICK_MOD /\
  (Z.of_N 9999999 <= INT_MAX)%Z /\
  exists s : String.string,
    trace (button_event_handler TWR_BUTTON_EVENT_RELEASE
             (tick_add near_wrap 9999999) held_near_wrap) =
    trace held_near_wrap ++
    [Uart_write (Msg_Button_hold_duration (Z.of_N 9999999))] /\
    Text.text_of (Msg_Button_hold_duration (Z.of_N 9999999)) = Some s /\
    ((Text.bytes_written s <= Text.BUFFER_SIZE)%nat <-> 9999999 < 10000000).
Proof.
  assert (Hf : button_hold_event held_near_wrap = true) by reflexivity.
  assert (Ht : tick_start_button_press held_near_wrap = near_wrap)
    by reflexivity.
  assert (H0 : near_wrap < TICK_MOD) by reflexivity.
  assert (Hd : (Z.of_N 9999999 <= INT_MAX)%Z) by discriminate.
  repeat (split; [assumption|]).
  exact (@X12_duration_text_and_buffer half_g_dice held_near_wrap near_wrap
           9999999 Hf Ht H0 Hd).
Defined.

(** X13 to X17 in the STM32L0 layout. *)
Lemma X13_dac_calls_keep_unlocked_witness :
  DAC.Lock dac_reset = DAC.HAL_UNLOCKED /\
  DAC.Lock
    (snd (@DAC.calls DAC.stm32l0_fields
            [DAC.Call_Init; DAC.Call_ConfigChannel software_trigger 0;
             DAC.Call_Stop 0; DAC.Call_DeInit] dac_reset)) =
  DAC.HAL_UNLOCKED.
Proof.
  split; [reflexivity|].
  exact (proj1 (proj2 (@X13_dac_calls_keep_unlocked DAC.stm32l0_fields
                         [DAC.Call_Init;
                          DAC.Call_ConfigChannel software_trigger 0;
                          DAC.Call_Stop 0; DAC.Call_DeInit]
                         dac_reset eq_refl))).
Defined.

Lemma X14_dac_locked_handle_witness :
  DAC.Lock dac_locked = DAC.HAL_LOCKED /\
  @DAC.HAL_DAC_ConfigChannel DAC.stm32l0_fields dac_locked software_trigger 16
  = (DAC.HAL_BUSY, dac_locked).
Proof.
  split; [reflexivity|].
  exact (proj1 (@X14_dac_locked_handle DAC.stm32l0_fields dac_locked
                  software_trigger 16 eq_refl)).
Defined.

Lemma X15_config_channel_fields_witness :
  DAC.Lock dac_enabled = DAC.HAL_UNLOCKED /\ (0 <= 16 < 32)%Z /\
  @DAC.valid_config DAC.stm32l0_fields software_trigger /\
  @DAC.fields_apart DAC.stm32l0_fields /\
  @DAC.enable_apart DAC.stm32l0_fields /\
  Z.land
    (DAC.Instance_CR
       (snd (@DAC.HAL_DAC_ConfigChannel DAC.stm32l0_fields dac_enabled
               software_trigger 16)))
    (DAC.shl32 (@DAC.DAC_CR_EN1 DAC.stm32l0_fields) 16) =
  Z.land (DAC.Instance_CR dac_enabled)
    (DAC.shl32 (@DAC.DAC_CR_EN1 DAC.stm32l0_fields) 16).
Proof.
  assert (Hch : (0 <= 16 < 32)%Z) by lia.
  assert (Hv : @DAC.valid_config DAC.stm32l0_fields software_trigger)
    by (repeat split; discriminate).
  assert (Hf : @DAC.fields_apart DAC.stm32l0_fields) by reflexivity.
  assert (He : @DAC.enable_apart DAC.stm32l0_fields) by reflexivity.
  split; [reflexivity|]. repeat (split; [assumption|]).
  exact (proj2 (proj2 (proj2
           (@X15_config_channel_fields DAC.stm32l0_fields dac_enabled
              software_trigger 16 eq_refl Hch Hv Hf He)))).
Defined.

Lemma X16_config_channel_idempotent_witness :
  DAC.Lock dac_enabled = DAC.HAL_UNLOCKED /\ (0 <= 16 < 32)%Z /\
  @DAC.HAL_DAC_ConfigChannel DAC.stm32l0_fields
    (snd (@DAC.HAL_DAC_ConfigChannel DAC.stm32l0_fields dac_enabled
            software_trigger 16)) software_trigger 16 =
  (DAC.HAL_OK,
   snd (@DAC.HAL_DAC_ConfigChannel DAC.stm32l0_fields dac_enabled
          software_trigger 16)).
Proof.
  assert (Hch : (0 <= 16 < 32)%Z) by lia.
  split; [reflexivity|]. split; [exact Hch|].
  exact (@X16_config_channel_idempotent DAC.stm32l0_fields dac_enabled
           software_trigger 16 eq_refl Hch).
Defined.

Lemma X17_stop_and_config_commute_witness :
  DAC.Lock dac_enabled = DAC.HAL_UNLOCKED /\ (0 <= 16 < 32)%Z /\
  (0 <= DAC.Instance_CR dac_enabled < DAC.UINT32_MOD)%Z /\
  @DAC.valid_config DAC.stm32l0_fields software_trigger /\
  @DAC.enable_apart DAC.stm32l0_fields /\
  Z.land
    (DAC.Instance_CR
       (snd (@DAC.HAL_DAC_Stop DAC.stm32l0_fields dac_enabled 16)))
    (DAC.shl32 (@DAC.DAC_CR_EN1 DAC.stm32l0_fields) 16) = 0%Z.
Proof.
  assert (Hch : (0 <= 16 < 32)%Z) by lia.
  assert (Hcr : (0 <= DAC.Instance_CR dac_enabled < DAC.UINT32_MOD)%Z)
    by (split; [discriminate|reflexivity]).
  assert (Hv : @DAC.valid_config DAC.stm32l0_fields software_trigger)
    by (repeat split; discriminate).
  assert (Hf : @DAC.fields_apart DAC.stm32l0_fields) by reflexivity.
  assert (He : @DAC.enable_apart DAC.stm32l0_fields) by reflexivity.
  split; [reflexivity|]. repeat (split; [assumption|]).
  exact (proj1 (@X17_stop_and_config_commute DAC.stm32l0_fields dac_enabled
                  software_trigger 16 eq_refl Hch Hcr Hv He)).
Defined.
